(** * Streak grid of kana-dojo: the calendar cells of the progress view

    Shallow embedding of [features/Progress/components/StreakGrid.tsx].
    The grid is built from three ingredients: the ECMAScript [Date]
    built-in, the helpers imported from [../lib/streakCalculations]
    ([formatDate], [getDayOfWeek], [getMonthName], [hasVisit],
    [getDaysInPeriod]) and the wall clock read by [new Date()]. *)

From Stdlib Require Import ZArith Lia Ascii String.
From stdpp Require Import base tactics option list strings.

Local Open Scope Z_scope.

(** ** The ECMAScript [Date] built-in

    A [Date] is kept as its local calendar fields: full year, month index
    (0 = January), day of the month and the milliseconds elapsed since
    local midnight.  The local time zone is a fixed offset from UTC. *)

Module JSDate.

Record Date : Type := mkDate
  { getFullYear : Z;
    getMonth : Z;
    getDate : Z;
    msInDay : Z }.

Definition msPerDay : Z := 86400000.
Definition msPerMinute : Z := 60000.

Definition InLeapYear (y : Z) : bool :=
  (y mod 4 =? 0) && (negb (y mod 100 =? 0) || (y mod 400 =? 0)).

Definition DaysInMonth (y m : Z) : Z :=
  match m with
  | 0 => 31
  | 1 => if InLeapYear y then 29 else 28
  | 2 => 31
  | 3 => 30
  | 4 => 31
  | 5 => 30
  | 6 => 31
  | 7 => 31
  | 8 => 30
  | 9 => 31
  | 10 => 30
  | _ => 31
  end.

(** Day number of January 1st of year [y], counted from 1970-01-01. *)
Definition DayFromYear (y : Z) : Z :=
  365 * (y - 1970) + (y - 1969) / 4 - (y - 1901) / 100 + (y - 1601) / 400.

(** Days of the year that precede the first day of month [m]. *)
Definition DayWithinYear (y m : Z) : Z :=
  let l := if InLeapYear y then 1 else 0 in
  match m with
  | 0 => 0
  | 1 => 31
  | 2 => 59 + l
  | 3 => 90 + l
  | 4 => 120 + l
  | 5 => 151 + l
  | 6 => 181 + l
  | 7 => 212 + l
  | 8 => 243 + l
  | 9 => 273 + l
  | 10 => 304 + l
  | _ => 334 + l
  end.

(** [Day(t)]: the number of the local day. *)
Definition Day (d : Date) : Z :=
  DayFromYear (getFullYear d) + DayWithinYear (getFullYear d) (getMonth d)
  + getDate d - 1.

(** [getDay()]: 0 = Sunday ... 6 = Saturday; 1970-01-01 was a Thursday. *)
Definition getDay (d : Date) : Z := (Day d + 4) mod 7.

(** Local time value; [valueOf()] differs from it by the constant zone
    offset, so both order dates the same way. *)
Definition localTime (d : Date) : Z := Day d * msPerDay + msInDay d.

Definition nextDay (d : Date) : Date :=
  if getDate d <? DaysInMonth (getFullYear d) (getMonth d)
  then mkDate (getFullYear d) (getMonth d) (getDate d + 1) (msInDay d)
  else if getMonth d <? 11
       then mkDate (getFullYear d) (getMonth d + 1) 1 (msInDay d)
       else mkDate (getFullYear d + 1) 0 1 (msInDay d).

Definition prevDay (d : Date) : Date :=
  if 1 <? getDate d
  then mkDate (getFullYear d) (getMonth d) (getDate d - 1) (msInDay d)
  else if 0 <? getMonth d
       then mkDate (getFullYear d) (getMonth d - 1)
                   (DaysInMonth (getFullYear d) (getMonth d - 1)) (msInDay d)
       else mkDate (getFullYear d - 1) 11 31 (msInDay d).

(** Move a date by [n] days, carrying into months and years. *)
Definition addDays (d : Date) (n : Z) : Date :=
  if 0 <=? n then Nat.iter (Z.to_nat n) nextDay d
  else Nat.iter (Z.to_nat (- n)) prevDay d.

(** [MakeDay]: the first day of month [m] of year [y] (a month index
    outside 0..11 carries into the year), moved by [dt - 1] days. *)
Definition MakeDay (y m dt ms : Z) : Date :=
  addDays (mkDate (y + m / 12) (m mod 12) 1 ms) (dt - 1).

(** [new Date(year, monthIndex, day)]: local midnight of that day; a year
    from 0 to 99 stands for 1900 + year. *)
Definition newDateYMD (y m dt : Z) : Date :=
  MakeDay (if (0 <=? y) && (y <=? 99) then 1900 + y else y) m dt 0.

(** [d.setDate(n)]: day [n] of the month of [d], same time of day. *)
Definition setDate (d : Date) (n : Z) : Date :=
  MakeDay (getFullYear d) (getMonth d) n (msInDay d).

(** The value of a decimal digit character, and of a run of them. *)
Definition digitValue (c : ascii) : Z := Z.of_nat (nat_of_ascii c) - 48.

Fixpoint numberOf (acc : Z) (s : string) : Z :=
  match s with
  | EmptyString => acc
  | String c s' => numberOf (acc * 10 + digitValue c) s'
  end.

(** The calendar fields written in a [YYYY-MM-DD] string. *)
Definition civilOfString (s : string) : Date :=
  mkDate (numberOf 0 (substring 0 4 s))
         (numberOf 0 (substring 5 2 s) - 1)
         (numberOf 0 (substring 8 2 s)) 0.

(** [new Date(s)] for a date-only string [s]: the standard reads such a
    string as midnight UTC, so the local fields are those of that instant
    seen [tz] minutes east of Greenwich. *)
Definition newDateString (tz : Z) (s : string) : Date :=
  let c := civilOfString s in
  addDays (mkDate (getFullYear c) (getMonth c) (getDate c)
                  ((tz * msPerMinute) mod msPerDay))
          ((tz * msPerMinute) / msPerDay).

(** A date the calendar has, at a time of day the clock can show. *)
Definition validDate (d : Date) : Prop :=
  0 <= getMonth d <= 11 /\
  1 <= getDate d <= DaysInMonth (getFullYear d) (getMonth d) /\
  0 <= msInDay d < msPerDay.

(** A valid date whose year fits the four digits of [YYYY]. *)
Definition wellFormed (d : Date) : Prop :=
  validDate d /\ 0 <= getFullYear d <= 9999.

(** A well-formed date of a year that [new Date(year, ...)] takes as it
    is written. *)
Definition clockDate (d : Date) : Prop :=
  wellFormed d /\ 100 <= getFullYear d.

(** Two readings taken on the same calendar day. *)
Definition sameDay (a b : Date) : Prop :=
  getFullYear a = getFullYear b /\ getMonth a = getMonth b /\
  getDate a = getDate b.

(** Calendar order on the fields: year, then month, then day. *)
Definition civilLt (a b : Date) : Prop :=
  getFullYear a < getFullYear b \/
  (getFullYear a = getFullYear b /\
   (getMonth a < getMonth b \/
    (getMonth a = getMonth b /\ getDate a < getDate b))).

End JSDate.

Import JSDate.

(** ** The wall clock

    [new Date()] reads the clock.  A computation that reads it is a state
    transformer on the number of readings taken so far; the clock itself
    is a function giving the reading number [k]. *)

Definition Clock (A : Type) : Type := nat -> A * nat.

#[export] Instance clock_ret : MRet Clock := fun A x t => (x, t).

#[export] Instance clock_bind : MBind Clock :=
  fun A B f m t => let '(a, t') := m t in f a t'.

#[export] Instance clock_fmap : FMap Clock :=
  fun A B f m t => let '(a, t') := m t in (f a, t').

(** [new Date()] *)
Definition newDate (clk : nat -> Date) : Clock Date :=
  fun t => (clk t, S t).

(** The value a computation returns when started at reading [t]. *)
Definition result {A : Type} (m : Clock A) (t : nat) : A := fst (m t).

(** A clock whose readings all fall on the calendar day of [today]. *)
Definition steady (clk : nat -> Date) (today : Date) : Prop :=
  forall k, sameDay (clk k) today.

(** ** Helpers imported from [../lib/streakCalculations] *)

Module StreakCalculations.

(** The periods ['week'], ['month'] and ['year']. *)
Inductive TimePeriod : Type := PeriodWeek | PeriodMonth | PeriodYear.

Definition digitChar (n : Z) : ascii :=
  ascii_of_nat (48 + Z.to_nat (n mod 10)).

Definition pad2 (n : Z) : string :=
  String (digitChar (n / 10)) (String (digitChar n) EmptyString).

Definition pad4 (n : Z) : string :=
  String (digitChar (n / 1000)) (String (digitChar (n / 100)) (pad2 n)).

(** Modelled from the spec: [formatDate] is not among the sources.  The
    spec gives a date as the zero-padded [YYYY-MM-DD] string of the local
    calendar day. *)
Definition formatDate (d : Date) : string :=
  pad4 (getFullYear d) +:+ "-" +:+ pad2 (getMonth d + 1) +:+ "-"
  +:+ pad2 (getDate d).

(** Modelled from the spec: [getDayOfWeek] is not among the sources.  The
    spec gives the weekday of the calendar date with Monday = 0 and
    Sunday = 6, a remap of the Sunday-based index. *)
Definition getDayOfWeek (dateStr : string) : Z :=
  let day := getDay (civilOfString dateStr) in
  if day =? 0 then 6 else day - 1.

Definition monthNames : list string :=
  ["January"; "February"; "March"; "April"; "May"; "June"; "July";
   "August"; "September"; "October"; "November"; "December"]%string.

(** Modelled from the spec: [getMonthName] is not among the sources.  The
    spec gives the full month name of a [YYYY-MM] key. *)
Definition getMonthName (monthKey : string) : string :=
  let m := numberOf 0 (substring 5 2 monthKey) in
  if (1 <=? m) && (m <=? 12) then nth (Z.to_nat (m - 1)) monthNames ""%string
  else ""%string.

(** Modelled from the spec: [hasVisit] is not among the sources.  The spec
    makes a day visited when its date is a member of the visit
    collection. *)
Definition hasVisit (visits : list string) (dateStr : string) : bool :=
  existsb (String.eqb dateStr) visits.

End StreakCalculations.

Import StreakCalculations.

(** ** [StreakGrid.tsx] *)

(** [a > b] on strings: lexical order of the character codes (date
    strings hold one-byte characters only). *)
Definition stringGt (a b : string) : bool :=
  match String.compare a b with
  | Gt => true
  | _ => false
  end.

(** A string is falsy exactly when it is empty. *)
Definition truthy (s : string) : bool := negb (String.eqb s "").

(** Is the date string after today?  Reads the clock on every call. *)
Definition isFutureDate (clk : nat -> Date) (dateStr : string) : Clock bool :=
  now ← newDate clk;
  let today := formatDate now in
  mret (stringGt dateStr today).

Definition DAY_LABELS : list string :=
  ["Mon"; "Tue"; "Wed"; "Thu"; "Fri"; "Sat"; "Sun"]%string.

Definition FULL_MONTH_NAMES : list string :=
  ["January"; "February"; "March"; "April"; "May"; "June"; "July";
   "August"; "September"; "October"; "November"; "December"]%string.

(** What a grid cell receives: the props of [DayCell]. *)
Record DayCell : Type := mkDayCell
  { date : string;
    isVisited : bool;
    isFuture : bool }.

(** The three looks of a cell; [isFuture] is tested first. *)
Inductive CellStyle : Type := FutureStyle | VisitedStyle | UnvisitedStyle.

(** The [className] chosen for a cell. *)
Definition cellStyle (c : DayCell) : CellStyle :=
  if isFuture c then FutureStyle
  else if isVisited c then VisitedStyle
  else UnvisitedStyle.

(** The [title] of a cell. *)
Definition cellTitle (c : DayCell) : string :=
  date c +:+ (if isFuture c then " (future)"
              else if isVisited c then " ✓" else "")%string.

(** A week: seven slots, [None] for [null]. *)
Abbreviation Week := (list (option string)).

(** [new Array(7).fill(null)] *)
Definition emptyWeek : Week := replicate 7 None.

(** The seven days, Monday first, of the week of [days[0]]; [tz] is the
    offset of the local zone in minutes east of Greenwich. *)
Definition getFullWeekDays (tz : Z) (days : list string) : Week :=
  match days with
  | [] => emptyWeek
  | day0 :: _ =>
      let firstDay := newDateString tz day0 in
      let dayOfWeek := getDay firstDay in
      let mondayOffset := if dayOfWeek =? 0 then -6 else 1 - dayOfWeek in
      let monday := setDate firstDay (getDate firstDay + mondayOffset) in
      map (fun i => Some (formatDate (setDate monday (getDate monday + i))))
          (seqZ 0 7)
  end.

(** One slot of a grid: a falsy day ([null] or the empty string) is drawn
    as a spacer, any other day as a cell with its two flags. *)
Definition renderDay (clk : nat -> Date) (visits : list string)
    (day : option string) : Clock (option DayCell) :=
  match day with
  | Some dayDate =>
      if truthy dayDate then
        isFuture ← isFutureDate clk dayDate;
        let isVisited := hasVisit visits dayDate in
        mret (Some (mkDayCell dayDate isVisited isFuture))
      else mret None
  | None => mret None
  end.

(** The week view: the row of day slots (labels and layout left out). *)
Definition WeekGrid (clk : nat -> Date) (tz : Z) (visits days : list string)
    : Clock (list (option DayCell)) :=
  let fullWeekDays := getFullWeekDays tz days in
  mapM (renderDay clk visits) fullWeekDays.

(** All days of the current month, future ones included. *)
Definition getFullMonthDays (clk : nat -> Date) : Clock (list string) :=
  now ← newDate clk;
  let year := getFullYear now in
  let month := getMonth now in
  let lastDay := getDate (newDateYMD year (month + 1) 0) in
  mret (map (fun day => formatDate (newDateYMD year month day))
            (seqZ 1 lastDay)).

(** The loop that groups days into week columns; [MonthGrid] and
    [YearGrid] both contain it.  [currentWeek[dayOfWeek] = day] writes slot
    [dayOfWeek]; the helper returns an index from 0 to 6. *)
Fixpoint groupLoop (days : list string) (weeks : list Week)
    (currentWeek : Week) : list Week * Week :=
  match days with
  | [] => (weeks, currentWeek)
  | day :: rest =>
      let dayOfWeek := getDayOfWeek day in
      let currentWeek := <[Z.to_nat dayOfWeek := Some day]> currentWeek in
      if dayOfWeek =? 6
      then groupLoop rest (weeks ++ [currentWeek]) emptyWeek
      else groupLoop rest weeks currentWeek
  end.

(** [d !== null] *)
Definition isNonNull (d : option string) : bool :=
  match d with
  | Some _ => true
  | None => false
  end.

(** The loop, then the push of the last week if it has any day. *)
Definition groupWeeks (days : list string) : list Week :=
  let '(weeks, currentWeek) := groupLoop days [] emptyWeek in
  if existsb isNonNull currentWeek then weeks ++ [currentWeek] else weeks.

(** The statements of [MonthGrid] before its markup. *)
Definition monthGridData (clk : nat -> Date) : Clock (string * list Week) :=
  currentDate ← newDate clk;
  let monthName :=
    nth (Z.to_nat (getMonth currentDate)) FULL_MONTH_NAMES ""%string in
  allMonthDays ← getFullMonthDays clk;
  mret (monthName, groupWeeks allMonthDays).

(** What the month markup shows: the title and, column by column, the
    slots of the weeks. *)
Record MonthView : Type := mkMonthView
  { monthTitle : string;
    monthColumns : list (list (option DayCell)) }.

(** The month view.  The component takes [days] and never uses it. *)
Definition MonthGrid (clk : nat -> Date) (visits days : list string)
    : Clock MonthView :=
  '(monthName, weeks) ← monthGridData clk;
  columns ← mapM (mapM (renderDay clk visits)) weeks;
  mret (mkMonthView monthName columns).

(** The [while] loop of [getFullYearDays], bounded by [fuel] rounds. *)
Fixpoint yearLoop (fuel : nat) (currentDate endDate : Date)
    (yearDays : list string) : option (list string) :=
  match fuel with
  | O => None
  | S fuel' =>
      if localTime currentDate <=? localTime endDate
      then yearLoop fuel' (setDate currentDate (getDate currentDate + 1))
                    endDate (yearDays ++ [formatDate currentDate])
      else Some yearDays
  end.

(** All days of the current year, January 1st to December 31st; [None]
    when the rounds run out before the loop ends. *)
Definition getFullYearDays (clk : nat -> Date) (fuel : nat)
    : Clock (option (list string)) :=
  now ← newDate clk;
  let year := getFullYear now in
  let startDate := newDateYMD year 0 1 in
  let endDate := newDateYMD year 11 31 in
  mret (yearLoop fuel startDate endDate []).

(** [week.find(d => d !== null)] *)
Fixpoint findNonNull (week : Week) : option string :=
  match week with
  | [] => None
  | Some d :: _ => Some d
  | None :: rest => findNonNull rest
  end.

(** The loop over the weeks that computes the month labels. *)
Fixpoint monthLabelsLoop (weeks : list Week) (lastMonth : string)
    (monthLabels : list string) : list string :=
  match weeks with
  | [] => monthLabels
  | week :: rest =>
      match findNonNull week with
      | Some firstDayInWeek =>
          if truthy firstDayInWeek then
            let monthKey := substring 0 7 firstDayInWeek in
            if negb (String.eqb monthKey lastMonth)
            then monthLabelsLoop rest monthKey
                   (monthLabels ++ [getMonthName monthKey])
            else monthLabelsLoop rest lastMonth (monthLabels ++ [""%string])
          else monthLabelsLoop rest lastMonth (monthLabels ++ [""%string])
      | None => monthLabelsLoop rest lastMonth (monthLabels ++ [""%string])
      end
  end.

(** [jan1DayOfWeek], which [YearGrid] computes from [currentYear] and
    never uses: the weekday of January 1st, Monday = 0. *)
Definition jan1DayOfWeek (currentYear : Z) : Z :=
  let jan1 := newDateYMD currentYear 0 1 in
  if getDay jan1 =? 0 then 6 else getDay jan1 - 1.

(** The values [YearGrid] computes before its markup. *)
Record YearData : Type := mkYearData
  { currentYear : Z;
    allWeeks : list Week;
    monthLabels : list string }.

(** The statements of [YearGrid] before its markup.  ([jan1DayOfWeek] is
    computed there and never used.) *)
Definition yearGridData (clk : nat -> Date) (fuel : nat)
    : Clock (option YearData) :=
  now ← newDate clk;
  let currentYear := getFullYear now in
  allYearDays ← getFullYearDays clk fuel;
  mret (match allYearDays with
        | Some allYearDays =>
            let allWeeks := groupWeeks allYearDays in
            Some (mkYearData currentYear allWeeks
                             (monthLabelsLoop allWeeks ""%string []))
        | None => None
        end).

(** What the year markup shows: the title, the month labels and, row by
    row, the slots of the days of the week. *)
Record YearView : Type := mkYearView
  { yearTitle : Z;
    yearLabels : list string;
    yearRows : list (list (option DayCell)) }.

(** The year view.  The markup has one row per day label and, in it, one
    slot per week: [week[dayIndex]].  The component takes [days] and never
    uses it. *)
Definition YearGrid (clk : nat -> Date) (fuel : nat) (visits days : list string)
    : Clock (option YearView) :=
  data ← yearGridData clk fuel;
  match data with
  | Some data =>
      rows ← mapM (fun dayIndex =>
                     mapM (fun week : Week =>
                             renderDay clk visits (mjoin (week !! dayIndex)))
                          (allWeeks data))
                  (seq 0 (length DAY_LABELS));
      mret (Some (mkYearView (currentYear data) (monthLabels data) rows))
  | None => mret None
  end.

(** What [StreakGrid] shows: the view of the chosen period. *)
Inductive GridView : Type :=
  | WeekView (cells : list (option DayCell))
  | MonthGridView (v : MonthView)
  | YearGridView (v : option YearView).

Section StreakGrid.

(** [getDaysInPeriod] is imported from the calculations module. *)
Variable getDaysInPeriod : TimePeriod -> Clock (list string).

(** The exported component. *)
Definition StreakGrid (clk : nat -> Date) (tz : Z) (fuel : nat)
    (visits : list string) (period : TimePeriod) : Clock GridView :=
  days ← getDaysInPeriod period;
  match period with
  | PeriodWeek => WeekView <$> WeekGrid clk tz visits days
  | PeriodMonth => MonthGridView <$> MonthGrid clk visits days
  | PeriodYear => YearGridView <$> YearGrid clk fuel visits days
  end.

End StreakGrid.

(** ** [StreakStats.tsx] *)

(** The icons taken from [lucide-react]. *)
Inductive LucideIcon : Type := Flame | Trophy | Calendar.

(** One entry of [stats], which is also what a [StatCard] receives. *)
Record StatCardProps : Type := mkStat
  { title : string;
    icon : LucideIcon;
    value : Z;
    description : string }.

(** What a [StatCard] shows: its title, its icon, the value followed by
    ['day'] or ['days'], and its description. *)
Record StatCardView : Type := mkStatCardView
  { shownTitle : string;
    shownIcon : LucideIcon;
    shownValue : Z;
    shownUnit : string;
    shownDescription : string }.

Definition StatCard (props : StatCardProps) : StatCardView :=
  mkStatCardView (title props) (icon props) (value props)
    (if value props =? 1 then "day"%string else "days"%string)
    (description props).

Section StreakStats.

(** The three calculations are imported from the calculations module;
    each may read the clock. *)
Variable calculateCurrentStreak : list string -> Clock Z.
Variable calculateLongestStreak : list string -> Clock Z.
Variable calculateTotalVisits : list string -> Clock Z.

Definition StreakStats (visits : list string) : Clock (list StatCardView) :=
  currentStreak ← calculateCurrentStreak visits;
  longestStreak ← calculateLongestStreak visits;
  totalVisits ← calculateTotalVisits visits;
  let stats :=
    [ mkStat "Current Streak"%string Flame currentStreak
        (if 0 <? currentStreak then "Keep it going!"%string
         else "Start your streak today!"%string);
      mkStat "Longest Streak"%string Trophy longestStreak
        (if (longestStreak <=? currentStreak) && (0 <? currentStreak)
         then "You're at your best!"%string
         else "Your personal record"%string);
      mkStat "Total Visits"%string Calendar totalVisits
        "Days you've practiced"%string ]
  in
  mret (map StatCard stats).

End StreakStats.

(** ** Vocabulary of the statements *)

(** What a cell shows apart from the visit: its date and its future
    mark. *)
Definition cellShape (c : DayCell) : string * bool := (date c, isFuture c).


(** The weekday of January 1st of the year of [now], Monday = 0. *)
Definition januaryWeekday (now : Date) : Z :=
  getDayOfWeek (formatDate (mkDate (getFullYear now) 0 1 0)).


(** The real days of a column, top to bottom. *)
Definition realDays (w : Week) : list string := omap id w.

(** How many of the first [i] days are Sundays. *)
Definition sundaysBefore (i : nat) (days : list string) : nat :=
  length (filter (fun d => getDayOfWeek d = 6) (take i days)).

(** Each day of the list falls on the weekday after its predecessor's. *)
Fixpoint weekdayChain (days : list string) : Prop :=
  match days with
  | d :: rest =>
      match rest with
      | d' :: _ => getDayOfWeek d' = (getDayOfWeek d + 1) mod 7
      | [] => True
      end /\ weekdayChain rest
  | [] => True
  end.

(** What the spec says of week columns built from [days]:
    - day number [i] sits in the column counted by the Sundays before it,
      in the row of its weekday;
    - the first column is null above the first day;
    - the loop leaves as many closed columns as there are Sundays, and the
      column still open at the end is kept exactly when it holds a day. *)
Definition weekColumns (days : list string) (weeks : list Week) : Prop :=
  (forall i d, days !! i = Some d ->
     exists w, weeks !! sundaysBefore i days = Some w /\
               w !! Z.to_nat (getDayOfWeek d) = Some (Some d)) /\
  (forall d0 r, head days = Some d0 -> (r < Z.to_nat (getDayOfWeek d0))%nat ->
     exists w, weeks !! 0%nat = Some w /\ w !! r = Some None) /\
  (exists closed trailing,
     groupLoop days [] emptyWeek = (closed, trailing) /\
     length closed = sundaysBefore (length days) days /\
     ((exists d, Some d ∈ trailing) -> weeks = closed ++ [trailing]) /\
     (~ (exists d, Some d ∈ trailing) -> weeks = closed)) /\
  (forall w, w ∈ weeks -> length w = 7%nat /\ exists d, Some d ∈ w).

(** The calendar days of the month of [now], first to last. *)
Definition monthDates (now : Date) : list Date :=
  map (fun day => mkDate (getFullYear now) (getMonth now) day 0)
      (seqZ 1 (DaysInMonth (getFullYear now) (getMonth now))).

(** The month key of a column: that of its first real day. *)
Definition monthKeyOf (w : Week) : string :=
  match findNonNull w with
  | Some d => substring 0 7 d
  | None => ""%string
  end.

(** Column [i] begins a month when its key differs from the key of the
    column before it; column 0 always does. *)
Definition beginsMonth (weeks : list Week) (i : nat) : bool :=
  match i with
  | O => true
  | S j =>
      match weeks !! j, weeks !! i with
      | Some prev, Some w => negb (String.eqb (monthKeyOf w) (monthKeyOf prev))
      | _, _ => false
      end
  end.

(** The month keys among the days of a column. *)
Definition monthKeysOf (w : Week) : list string :=
  map (substring 0 7) (realDays w).

(** Column [i] is the first in which some month key appears: one of its
    days has a key that no day of an earlier column has. *)
Definition introducesMonth (weeks : list Week) (i : nat) : bool :=
  match weeks !! i with
  | Some w =>
      existsb
        (fun key =>
           negb (existsb (String.eqb key)
                         (concat (map monthKeysOf (take i weeks)))))
        (monthKeysOf w)
  | None => false
  end.

(** The cells drawn by the month and the year markup. *)
Definition weekCells (cells : list (option DayCell)) : list DayCell :=
  omap id cells.

Definition monthCells (v : MonthView) : list DayCell :=
  omap id (concat (monthColumns v)).

Definition yearCells (v : YearView) : list DayCell :=
  omap id (concat (yearRows v)).

(** The calendar days of the year of [now], January 1st onwards. *)
Definition yearDates (now : Date) : list Date :=
  map (addDays (mkDate (getFullYear now) 0 1 0))
      (seqZ 0 (if InLeapYear (getFullYear now) then 366 else 365)).

(** A drawn cell carries the day of its slot, the membership of that day
    in the visits, and the comparison of that day with one reading of the
    clock. *)
Definition drawnFrom (clk : nat -> Date) (visits : list string)
    (day : option string) (cell : option DayCell) : Prop :=
  match cell with
  | Some c =>
      day = Some (date c) /\
      isVisited c = hasVisit visits (date c) /\
      exists k, isFuture c = stringGt (date c) (formatDate (clk k))
  | None => True
  end.

(** Rounds that always suffice for the loop over the days of a year. *)
Definition yearFuel : nat := 367.

(** * Properties *)

(** ** The calendar *)

(** Validity of a date given by its numbers. *)
Ltac concrete_date :=
  unfold clockDate, wellFormed, validDate; repeat split; vm_compute;
  first [reflexivity | intro; discriminate].

Section Calendar.

Local Ltac month_cases m H :=
  let E := fresh "E" in
  assert (E : m = 0 \/ m = 1 \/ m = 2 \/ m = 3 \/ m = 4 \/ m = 5 \/ m = 6 \/
              m = 7 \/ m = 8 \/ m = 9 \/ m = 10 \/ m = 11) by lia;
  repeat (destruct E as [E | E]; [subst m | ]); [.. | subst m].

Lemma InLeapYear_spec (y : Z) :
  InLeapYear y = true <->
  y mod 4 = 0 /\ (y mod 100 <> 0 \/ y mod 400 = 0).
Proof.
  unfold InLeapYear.
  rewrite andb_true_iff, orb_true_iff, negb_true_iff, !Z.eqb_eq, Z.eqb_neq.
  tauto.
Qed.

Lemma DayFromYear_succ (y : Z) :
  DayFromYear (y + 1) =
  DayFromYear y + 365 + (if InLeapYear y then 1 else 0).
Proof.
  unfold DayFromYear.
  destruct (InLeapYear y) eqn:L.
  - apply InLeapYear_spec in L. Z.div_mod_to_equations. lia.
  - assert (N : ~ (y mod 4 = 0 /\ (y mod 100 <> 0 \/ y mod 400 = 0))).
    { rewrite <- InLeapYear_spec. congruence. }
    Z.div_mod_to_equations. lia.
Qed.

Lemma DaysInMonth_range (y m : Z) : 28 <= DaysInMonth y m <= 31.
Proof.
  unfold DaysInMonth. repeat case_match; lia.
Qed.

Lemma DayWithinYear_succ (y m : Z) :
  0 <= m < 11 ->
  DayWithinYear y (m + 1) = DayWithinYear y m + DaysInMonth y m.
Proof.
  intros H. month_cases m H; unfold DayWithinYear, DaysInMonth; simpl;
    destruct (InLeapYear y); lia.
Qed.

Lemma DayWithinYear_last (y : Z) :
  DayWithinYear y 11 + 31 = 365 + (if InLeapYear y then 1 else 0).
Proof. unfold DayWithinYear. destruct (InLeapYear y); lia. Qed.

Lemma Day_nextDay (d : Date) :
  validDate d -> Day (nextDay d) = Day d + 1.
Proof.
  destruct d as [y m dt ms]. unfold validDate, nextDay, Day. simpl.
  intros (Hm & Hd & _).
  destruct (Z.ltb_spec dt (DaysInMonth y m)); simpl; [lia | ].
  destruct (Z.ltb_spec m 11); simpl.
  - rewrite DayWithinYear_succ by lia. lia.
  - assert (m = 11) by lia. subst m.
    rewrite DayFromYear_succ. pose proof (DayWithinYear_last y).
    change (DaysInMonth y 11) with 31 in *.
    change (DayWithinYear (y + 1) 0) with 0. lia.
Qed.

Lemma validDate_nextDay (d : Date) : validDate d -> validDate (nextDay d).
Proof.
  destruct d as [y m dt ms]. unfold validDate, nextDay. simpl.
  intros (Hm & Hd & Hms).
  destruct (Z.ltb_spec dt (DaysInMonth y m)); simpl; [lia | ].
  destruct (Z.ltb_spec m 11); simpl.
  - pose proof (DaysInMonth_range y (m + 1)). lia.
  - change (DaysInMonth (y + 1) 0) with 31. lia.
Qed.

Lemma Day_prevDay (d : Date) :
  validDate d -> Day (prevDay d) = Day d - 1.
Proof.
  destruct d as [y m dt ms]. unfold validDate, prevDay, Day. simpl.
  intros (Hm & Hd & _).
  destruct (Z.ltb_spec 1 dt); simpl; [lia | ].
  destruct (Z.ltb_spec 0 m); simpl.
  - pose proof (DayWithinYear_succ y (m - 1)) as S.
    replace (m - 1 + 1) with m in S by lia. rewrite S by lia. lia.
  - assert (m = 0) by lia. subst m.
    pose proof (DayFromYear_succ (y - 1)) as S.
    replace (y - 1 + 1) with y in S by lia. rewrite S.
    pose proof (DayWithinYear_last (y - 1)).
    change (DayWithinYear y 0) with 0. lia.
Qed.

Lemma validDate_prevDay (d : Date) : validDate d -> validDate (prevDay d).
Proof.
  destruct d as [y m dt ms]. unfold validDate, prevDay. simpl.
  intros (Hm & Hd & Hms).
  destruct (Z.ltb_spec 1 dt); simpl; [lia | ].
  destruct (Z.ltb_spec 0 m); simpl.
  - pose proof (DaysInMonth_range y (m - 1)). lia.
  - change (DaysInMonth (y - 1) 11) with 31. lia.
Qed.

Lemma msInDay_nextDay (d : Date) : msInDay (nextDay d) = msInDay d.
Proof. unfold nextDay. repeat case_match; reflexivity. Qed.

Lemma msInDay_prevDay (d : Date) : msInDay (prevDay d) = msInDay d.
Proof. unfold prevDay. repeat case_match; reflexivity. Qed.

Lemma iter_nextDay (n : nat) (d : Date) :
  validDate d ->
  validDate (Nat.iter n nextDay d) /\
  Day (Nat.iter n nextDay d) = Day d + Z.of_nat n /\
  msInDay (Nat.iter n nextDay d) = msInDay d.
Proof.
  intros V. induction n as [ | n (IV & ID & IM)]; simpl.
  - split; [done | split; [lia | done]].
  - split; [by apply validDate_nextDay | ].
    split; [rewrite Day_nextDay by done; lia | ].
    by rewrite msInDay_nextDay.
Qed.

Lemma iter_prevDay (n : nat) (d : Date) :
  validDate d ->
  validDate (Nat.iter n prevDay d) /\
  Day (Nat.iter n prevDay d) = Day d - Z.of_nat n /\
  msInDay (Nat.iter n prevDay d) = msInDay d.
Proof.
  intros V. induction n as [ | n (IV & ID & IM)]; simpl.
  - split; [done | split; [lia | done]].
  - split; [by apply validDate_prevDay | ].
    split; [rewrite Day_prevDay by done; lia | ].
    by rewrite msInDay_prevDay.
Qed.

(** Moving a valid date by [n] days moves its day number by [n]. *)
Lemma addDays_spec (d : Date) (n : Z) :
  validDate d ->
  validDate (addDays d n) /\ Day (addDays d n) = Day d + n /\
  msInDay (addDays d n) = msInDay d.
Proof.
  intros V. unfold addDays. destruct (Z.leb_spec 0 n).
  - destruct (iter_nextDay (Z.to_nat n) d V) as (? & ? & ?).
    split; [done | split; [lia | done]].
  - destruct (iter_prevDay (Z.to_nat (- n)) d V) as (? & ? & ?).
    split; [done | split; [lia | done]].
Qed.

End Calendar.

Section CalendarOrder.

Lemma DayFromYear_mono (a b : Z) : a <= b -> DayFromYear a <= DayFromYear b.
Proof. unfold DayFromYear. intros H. Z.div_mod_to_equations. lia. Qed.

Lemma DayWithinYear_bounds (y m dt : Z) :
  0 <= m <= 11 -> 1 <= dt <= DaysInMonth y m ->
  0 <= DayWithinYear y m + dt - 1 <= 364 + (if InLeapYear y then 1 else 0).
Proof.
  intros Hm. unfold DayWithinYear, DaysInMonth.
  assert (E : m = 0 \/ m = 1 \/ m = 2 \/ m = 3 \/ m = 4 \/ m = 5 \/ m = 6 \/
              m = 7 \/ m = 8 \/ m = 9 \/ m = 10 \/ m = 11) by lia.
  repeat (destruct E as [E | E]; [subst m | ]); [.. | subst m];
    destruct (InLeapYear y); lia.
Qed.

Lemma DayWithinYear_mono (y m1 m2 : Z) :
  0 <= m1 -> m1 < m2 -> m2 <= 11 ->
  DayWithinYear y m1 + DaysInMonth y m1 <= DayWithinYear y m2.
Proof.
  intros H0 H1 H2.
  assert (E : exists k, m2 = m1 + 1 + Z.of_nat k) by (exists (Z.to_nat (m2 - m1 - 1)); lia).
  destruct E as [k ->]. induction k as [ | k IH].
  - rewrite Z.add_0_r, DayWithinYear_succ by lia. lia.
  - replace (m1 + 1 + Z.of_nat (S k)) with (m1 + 1 + Z.of_nat k + 1) by lia.
    rewrite DayWithinYear_succ by lia.
    pose proof (DaysInMonth_range y (m1 + 1 + Z.of_nat k)).
    assert (m1 < m1 + 1 + Z.of_nat k) by lia.
    assert (m1 + 1 + Z.of_nat k <= 11) by lia.
    specialize (IH ltac:(done) ltac:(done)). lia.
Qed.

(** The day number orders valid dates as the calendar does. *)
Lemma Day_lt_civilLt (a b : Date) :
  validDate a -> validDate b -> (Day a < Day b <-> civilLt a b).
Proof.
  destruct a as [ya ma da sa], b as [yb mb db sb].
  unfold validDate, civilLt, Day. simpl.
  intros (Hma & Hda & _) (Hmb & Hdb & _).
  pose proof (DayWithinYear_bounds ya ma da Hma Hda) as Ba.
  pose proof (DayWithinYear_bounds yb mb db Hmb Hdb) as Bb.
  destruct (Z.lt_trichotomy ya yb) as [Hy | [Hy | Hy]].
  - pose proof (DayFromYear_mono (ya + 1) yb ltac:(lia)) as M.
    rewrite DayFromYear_succ in M. lia.
  - subst yb.
    destruct (Z.lt_trichotomy ma mb) as [Hm | [Hm | Hm]].
    + pose proof (DayWithinYear_mono ya ma mb ltac:(lia) Hm ltac:(lia)). lia.
    + subst mb. lia.
    + pose proof (DayWithinYear_mono ya mb ma ltac:(lia) Hm ltac:(lia)). lia.
  - pose proof (DayFromYear_mono (yb + 1) ya ltac:(lia)) as M.
    rewrite DayFromYear_succ in M. lia.
Qed.

Lemma Day_inj (a b : Date) :
  validDate a -> validDate b -> Day a = Day b -> sameDay a b.
Proof.
  intros Va Vb E.
  pose proof (Day_lt_civilLt a b Va Vb) as L1.
  pose proof (Day_lt_civilLt b a Vb Va) as L2.
  unfold civilLt, sameDay in *.
  assert (N1 : ~ Day a < Day b) by lia. assert (N2 : ~ Day b < Day a) by lia.
  rewrite L1 in N1. rewrite L2 in N2. lia.
Qed.

Lemma validDate_eq (a b : Date) :
  validDate a -> validDate b -> Day a = Day b -> msInDay a = msInDay b ->
  a = b.
Proof.
  intros Va Vb E Ms. destruct (Day_inj a b Va Vb E) as (? & ? & ?).
  destruct a, b; simpl in *; congruence.
Qed.

Lemma validDate_first (y m ms : Z) :
  0 <= m <= 11 -> 0 <= ms < msPerDay -> validDate (mkDate y m 1 ms).
Proof.
  intros Hm Hs. unfold validDate; simpl.
  pose proof (DaysInMonth_range y m). lia.
Qed.

Lemma MakeDay_in_range (y m dt ms : Z) :
  0 <= m <= 11 ->
  MakeDay y m dt ms = addDays (mkDate y m 1 ms) (dt - 1).
Proof.
  intros Hm. unfold MakeDay.
  rewrite Z.div_small, Z.mod_small, Z.add_0_r by lia. done.
Qed.

(** [d.setDate(d.getDate() + k)] is [d] moved by [k] days. *)
Lemma setDate_shift (d : Date) (k : Z) :
  validDate d -> setDate d (getDate d + k) = addDays d k.
Proof.
  intros V. pose proof V as (Hm & Hd & Hs).
  unfold setDate. rewrite MakeDay_in_range by done.
  pose proof (validDate_first (getFullYear d) (getMonth d) (msInDay d) Hm Hs) as V1.
  destruct (addDays_spec _ (getDate d + k - 1) V1) as (A1 & A2 & A3).
  destruct (addDays_spec d k V) as (B1 & B2 & B3).
  apply validDate_eq; [exact A1 | exact B1 | | ].
  - rewrite A2, B2. unfold Day; cbn [getFullYear getMonth getDate]. lia.
  - rewrite A3, B3. done.
Qed.

(** [new Date(y, m, dt)] of a day the calendar has is that day. *)
Lemma newDateYMD_year (y m dt : Z) :
  100 <= y -> newDateYMD y m dt = MakeDay y m dt 0.
Proof.
  intros Hy. unfold newDateYMD.
  destruct (Z.leb_spec y 99); [lia | ]. by rewrite andb_false_r.
Qed.

Lemma newDateYMD_valid (y m dt : Z) :
  100 <= y -> 0 <= m <= 11 -> 1 <= dt <= DaysInMonth y m ->
  newDateYMD y m dt = mkDate y m dt 0.
Proof.
  intros Hy Hm Hd. rewrite newDateYMD_year by done.
  rewrite MakeDay_in_range by done.
  assert (Hs : 0 <= 0 < msPerDay) by (unfold msPerDay; lia).
  pose proof (validDate_first y m 0 Hm Hs) as V1.
  destruct (addDays_spec _ (dt - 1) V1) as (A1 & A2 & A3).
  apply validDate_eq; [exact A1 | | | exact A3].
  - unfold validDate, msPerDay in *;
      cbn [getFullYear getMonth getDate msInDay]. lia.
  - rewrite A2. unfold Day; cbn [getFullYear getMonth getDate msInDay]. lia.
Qed.

(** [new Date(y, m + 1, 0)] is the last day of month [m]. *)
Lemma newDateYMD_lastDay (y m : Z) :
  100 <= y -> 0 <= m <= 11 ->
  newDateYMD y (m + 1) 0 = mkDate y m (DaysInMonth y m) 0.
Proof.
  intros Hy Hm. rewrite newDateYMD_year by done. unfold MakeDay.
  assert (Hs : 0 <= 0 < msPerDay) by (unfold msPerDay; lia).
  pose proof (DaysInMonth_range y m) as R.
  assert (V2 : validDate (mkDate y m (DaysInMonth y m) 0))
    by (unfold validDate, msPerDay in *;
        cbn [getFullYear getMonth getDate msInDay]; lia).
  destruct (Z.eq_dec m 11) as [-> | Hne].
  - change ((11 + 1) / 12) with 1. change ((11 + 1) mod 12) with 0.
    pose proof (validDate_first (y + 1) 0 0 ltac:(lia) Hs) as V1.
    destruct (addDays_spec _ (0 - 1) V1) as (A1 & A2 & A3).
    apply validDate_eq; [exact A1 | exact V2 | | exact A3].
    rewrite A2. unfold Day; cbn [getFullYear getMonth getDate].
    rewrite DayFromYear_succ. pose proof (DayWithinYear_last y).
    change (DaysInMonth y 11) with 31.
    change (DayWithinYear (y + 1) 0) with 0. lia.
  - rewrite Z.div_small, Z.mod_small, Z.add_0_r by lia.
    pose proof (validDate_first y (m + 1) 0 ltac:(lia) Hs) as V1.
    destruct (addDays_spec _ (0 - 1) V1) as (A1 & A2 & A3).
    apply validDate_eq; [exact A1 | exact V2 | | exact A3].
    rewrite A2. unfold Day; cbn [getFullYear getMonth getDate].
    rewrite DayWithinYear_succ by lia. lia.
Qed.

Lemma getDay_range (d : Date) : 0 <= getDay d <= 6.
Proof. unfold getDay. pose proof (Z.mod_pos_bound (Day d + 4) 7). lia. Qed.

End CalendarOrder.

(** ** Date strings *)

Section DateStrings.

Lemma digitValue_digitChar (n : Z) : digitValue (digitChar n) = n mod 10.
Proof.
  unfold digitValue, digitChar.
  pose proof (Z.mod_pos_bound n 10 ltac:(lia)) as B.
  rewrite nat_ascii_embedding by lia. lia.
Qed.

Lemma compare_digitChar (i j : Z) :
  Ascii.compare (digitChar i) (digitChar j) = (i mod 10 ?= j mod 10).
Proof.
  unfold Ascii.compare, digitChar.
  pose proof (Z.mod_pos_bound i 10 ltac:(lia)) as Bi.
  pose proof (Z.mod_pos_bound j 10 ltac:(lia)) as Bj.
  assert (E : forall k : nat, (k < 256)%nat ->
              N_of_ascii (ascii_of_nat k) = N.of_nat k).
  { intros k Hk. unfold ascii_of_nat. rewrite N_ascii_embedding; [done | lia]. }
  rewrite !E by lia.
  rewrite <- N2Z.inj_compare, !nat_N_Z.
  rewrite !Nat2Z.inj_add, !Z2Nat.id by lia.
  apply Z.add_compare_mono_l.
Qed.

Lemma numberOf_pad2 (n : Z) : 0 <= n <= 99 -> numberOf 0 (pad2 n) = n.
Proof.
  intros H. unfold pad2. cbn [numberOf].
  rewrite !digitValue_digitChar. Z.div_mod_to_equations. lia.
Qed.

Lemma numberOf_pad4 (n : Z) : 0 <= n <= 9999 -> numberOf 0 (pad4 n) = n.
Proof.
  intros H. unfold pad4, pad2. cbn [numberOf].
  rewrite !digitValue_digitChar. Z.div_mod_to_equations. lia.
Qed.

Lemma DaysInMonth_le_31 (d : Date) : validDate d -> 1 <= getDate d <= 31.
Proof.
  intros (_ & H & _).
  pose proof (DaysInMonth_range (getFullYear d) (getMonth d)). lia.
Qed.

(** Reading back the fields of a formatted date. *)
Lemma civilOfString_formatDate (d : Date) :
  wellFormed d ->
  civilOfString (formatDate d) =
  mkDate (getFullYear d) (getMonth d) (getDate d) 0.
Proof.
  intros [V Hy]. pose proof (DaysInMonth_le_31 d V).
  destruct V as (Hm & _ & _).
  unfold civilOfString, formatDate.
  change (substring 0 4 (pad4 (getFullYear d) +:+ "-" +:+
            pad2 (getMonth d + 1) +:+ "-" +:+ pad2 (getDate d)))
    with (pad4 (getFullYear d)).
  change (substring 5 2 (pad4 (getFullYear d) +:+ "-" +:+
            pad2 (getMonth d + 1) +:+ "-" +:+ pad2 (getDate d)))
    with (pad2 (getMonth d + 1)).
  change (substring 8 2 (pad4 (getFullYear d) +:+ "-" +:+
            pad2 (getMonth d + 1) +:+ "-" +:+ pad2 (getDate d)))
    with (pad2 (getDate d)).
  rewrite numberOf_pad4, !numberOf_pad2 by lia.
  f_equal. lia.
Qed.

(** The weekday helper on a formatted date: Monday-based index of the
    day number. *)
Lemma getDayOfWeek_formatDate (d : Date) :
  wellFormed d -> getDayOfWeek (formatDate d) = (Day d + 3) mod 7.
Proof.
  intros W. unfold getDayOfWeek. rewrite civilOfString_formatDate by done.
  unfold getDay.
  replace (Day (mkDate (getFullYear d) (getMonth d) (getDate d) 0))
    with (Day d) by (destruct d; reflexivity).
  destruct (Z.eqb_spec ((Day d + 4) mod 7) 0); Z.div_mod_to_equations; lia.
Qed.

Lemma truthy_formatDate (d : Date) : truthy (formatDate d) = true.
Proof. reflexivity. Qed.

Lemma formatDate_chars (d : Date) :
  formatDate d =
  String (digitChar (getFullYear d / 1000))
    (String (digitChar (getFullYear d / 100))
      (String (digitChar (getFullYear d / 10))
        (String (digitChar (getFullYear d))
          (String "-"
            (String (digitChar ((getMonth d + 1) / 10))
              (String (digitChar (getMonth d + 1))
                (String "-"
                  (String (digitChar (getDate d / 10))
                    (String (digitChar (getDate d)) EmptyString))))))))).
Proof. reflexivity. Qed.

(** Lexical order of formatted dates is calendar order. *)
Lemma compare_formatDate (a b : Date) :
  wellFormed a -> wellFormed b ->
  String.compare (formatDate a) (formatDate b) =
  (getFullYear a * 10000 + (getMonth a + 1) * 100 + getDate a ?=
   getFullYear b * 10000 + (getMonth b + 1) * 100 + getDate b).
Proof.
  intros [Va Ya] [Vb Yb].
  pose proof (DaysInMonth_le_31 a Va). pose proof (DaysInMonth_le_31 b Vb).
  destruct Va as (Ma & _ & _), Vb as (Mb & _ & _).
  rewrite !formatDate_chars. cbn [String.compare].
  rewrite !compare_digitChar.
  change (Ascii.compare "-" "-") with Eq. cbv iota.
  repeat match goal with
         | |- context [match ?x ?= ?y with _ => _ end] =>
             destruct (Z.compare_spec x y)
         end;
    symmetry;
    first [apply Z.compare_eq_iff | apply Z.compare_lt_iff
          | apply Z.compare_gt_iff];
    Z.div_mod_to_equations; lia.
Qed.

Lemma formatDate_sameDay (a b : Date) :
  sameDay a b -> formatDate a = formatDate b.
Proof. intros (Ey & Em & Ed). unfold formatDate. by rewrite Ey, Em, Ed. Qed.

End DateStrings.

(** ** Grouping days into week columns *)

Section WeekColumns.

Implicit Types (days : list string) (ws : list Week) (cur w : Week).

Lemma getDayOfWeek_range (s : string) : 0 <= getDayOfWeek s <= 6.
Proof.
  unfold getDayOfWeek. pose proof (getDay_range (civilOfString s)).
  destruct (Z.eqb_spec (getDay (civilOfString s)) 0); lia.
Qed.

Lemma sundaysBefore_0 days : sundaysBefore 0 days = 0%nat.
Proof. reflexivity. Qed.

Lemma sundaysBefore_S (i : nat) (d : string) days :
  sundaysBefore (S i) (d :: days) =
  ((if (getDayOfWeek d =? 6)%Z then 1 else 0) + sundaysBefore i days)%nat.
Proof.
  unfold sundaysBefore. cbn [take]. rewrite filter_cons.
  destruct (Z.eqb_spec (getDayOfWeek d) 6); case_decide; done.
Qed.

Lemma weekdayChain_tail (d : string) days :
  weekdayChain (d :: days) -> weekdayChain days.
Proof. by intros [_ H]. Qed.

Lemma weekdayChain_next (d d' : string) days :
  weekdayChain (d :: d' :: days) -> getDayOfWeek d <> 6 ->
  getDayOfWeek d' = getDayOfWeek d + 1.
Proof.
  intros [H _] N. pose proof (getDayOfWeek_range d).
  rewrite H. apply Z.mod_small. lia.
Qed.

Lemma groupLoop_cons (d : string) days ws cur :
  groupLoop (d :: days) ws cur =
  if getDayOfWeek d =? 6
  then groupLoop days (ws ++ [<[Z.to_nat (getDayOfWeek d) := Some d]> cur])
                 emptyWeek
  else groupLoop days ws (<[Z.to_nat (getDayOfWeek d) := Some d]> cur).
Proof. reflexivity. Qed.

(** The loop only ever appends to the closed columns. *)
Lemma groupLoop_prefix days ws cur :
  exists more, (groupLoop days ws cur).1 = ws ++ more.
Proof.
  revert ws cur. induction days as [ | d days IH]; intros ws cur.
  - exists []. simpl. by rewrite app_nil_r.
  - rewrite groupLoop_cons. destruct (getDayOfWeek d =? 6).
    + destruct (IH (ws ++ [<[Z.to_nat (getDayOfWeek d) := Some d]> cur])
                   emptyWeek) as [more E].
      exists (<[Z.to_nat (getDayOfWeek d) := Some d]> cur :: more).
      rewrite E, <- app_assoc. done.
    + apply IH.
Qed.

Lemma groupLoop_closed_lookup days ws cur (k : nat) w :
  ws !! k = Some w ->
  ((groupLoop days ws cur).1 ++ [(groupLoop days ws cur).2]) !! k = Some w.
Proof.
  intros H. destruct (groupLoop_prefix days ws cur) as [more ->].
  rewrite <- app_assoc. by apply lookup_app_l_Some.
Qed.

(** A slot above the rows still to be written keeps its content. *)
Lemma groupLoop_keeps_row days ws cur (r : nat) (x : option string) :
  weekdayChain days -> length cur = 7%nat ->
  (forall d, head days = Some d -> (r < Z.to_nat (getDayOfWeek d))%nat) ->
  cur !! r = Some x ->
  exists w,
    ((groupLoop days ws cur).1 ++ [(groupLoop days ws cur).2]) !! length ws
    = Some w /\ w !! r = Some x.
Proof.
  revert ws cur. induction days as [ | d days IH]; intros ws cur C L R X.
  - exists cur. split; [ | done]. simpl. by apply list_lookup_middle.
  - pose proof (getDayOfWeek_range d) as Rd.
    specialize (R d eq_refl).
    assert (X1 : <[Z.to_nat (getDayOfWeek d) := Some d]> cur !! r = Some x).
    { rewrite list_lookup_insert_ne by lia. done. }
    rewrite groupLoop_cons. destruct (Z.eqb_spec (getDayOfWeek d) 6) as [E | N].
    + eexists. split; [ | exact X1].
      apply groupLoop_closed_lookup. by apply list_lookup_middle.
    + apply IH; [by eapply weekdayChain_tail | by rewrite length_insert | | done].
      intros d' Hd'. destruct days as [ | d'' days]; [done | ].
      injection Hd' as ->.
      rewrite (weekdayChain_next d d' days C N). lia.
Qed.

(** Day [i] lands in the column counted by the Sundays before it. *)
Lemma groupLoop_place days ws cur (i : nat) (d : string) :
  weekdayChain days -> length cur = 7%nat -> days !! i = Some d ->
  exists w,
    ((groupLoop days ws cur).1 ++ [(groupLoop days ws cur).2])
      !! (length ws + sundaysBefore i days)%nat = Some w /\
    w !! Z.to_nat (getDayOfWeek d) = Some (Some d).
Proof.
  revert ws cur i. induction days as [ | a days IH]; intros ws cur i C L D.
  - done.
  - pose proof (getDayOfWeek_range a) as Ra.
    destruct i as [ | j].
    + injection D as ->. rewrite sundaysBefore_0, Nat.add_0_r.
      assert (X1 : <[Z.to_nat (getDayOfWeek d) := Some d]> cur
                     !! Z.to_nat (getDayOfWeek d) = Some (Some d)).
      { apply list_lookup_insert_eq. lia. }
      rewrite groupLoop_cons. destruct (Z.eqb_spec (getDayOfWeek d) 6) as [E | N].
      * eexists. split; [ | exact X1].
        apply groupLoop_closed_lookup. by apply list_lookup_middle.
      * apply groupLoop_keeps_row;
          [by eapply weekdayChain_tail | by rewrite length_insert | | done].
        intros d' Hd'. destruct days as [ | d'' days]; [done | ].
        injection Hd' as ->.
        rewrite (weekdayChain_next d d' days C N). lia.
    + simpl in D. rewrite sundaysBefore_S. rewrite groupLoop_cons.
      destruct (Z.eqb_spec (getDayOfWeek a) 6) as [E | N].
      * destruct (IH (ws ++ [<[Z.to_nat (getDayOfWeek a) := Some a]> cur])
                     emptyWeek j) as (w & W1 & W2);
          [by eapply weekdayChain_tail | done | done | ].
        exists w. split; [ | done].
        rewrite length_app in W1. simpl in W1.
        by replace (length ws + (1 + sundaysBefore j days))%nat
          with (length ws + 1 + sundaysBefore j days)%nat by lia.
      * apply IH; [by eapply weekdayChain_tail | by rewrite length_insert | done].
Qed.

(** As many columns are closed as there are Sundays. *)
Lemma groupLoop_closed_count days ws cur :
  length (groupLoop days ws cur).1
  = (length ws + sundaysBefore (length days) days)%nat.
Proof.
  revert ws cur. induction days as [ | a days IH]; intros ws cur.
  - simpl. rewrite sundaysBefore_0. lia.
  - cbn [length]. rewrite sundaysBefore_S. rewrite groupLoop_cons.
    destruct (Z.eqb_spec (getDayOfWeek a) 6) as [E | N].
    + rewrite IH, length_app. simpl. lia.
    + rewrite IH. lia.
Qed.

Lemma isNonNull_exists w :
  existsb isNonNull w = true <-> exists d, Some d ∈ w.
Proof.
  rewrite existsb_exists. split.
  - intros ([d | ] & I & E); [ | done]. exists d. by apply list_elem_of_In.
  - intros [d I]. exists (Some d). split; [by apply list_elem_of_In | done].
Qed.

Lemma elem_of_insert_week cur (i : nat) (d d' : string) :
  Some d' ∈ <[i := Some d]> cur -> d' = d \/ Some d' ∈ cur.
Proof.
  intros H. apply list_elem_of_lookup in H as [j Hj].
  apply list_lookup_insert_Some in Hj as [(_ & E & _) | (_ & Hj)].
  - left. congruence.
  - right. by eapply list_elem_of_lookup_2.
Qed.

(** Every column the loop closes has seven slots and holds a day. *)
Lemma groupLoop_closed_real days ws cur :
  length cur = 7%nat ->
  Forall (fun w => length w = 7%nat /\ exists d, Some d ∈ w) ws ->
  Forall (fun w => length w = 7%nat /\ exists d, Some d ∈ w)
         (groupLoop days ws cur).1 /\
  length (groupLoop days ws cur).2 = 7%nat.
Proof.
  revert ws cur. induction days as [ | a days IH]; intros ws cur L F.
  - done.
  - pose proof (getDayOfWeek_range a) as Ra. rewrite groupLoop_cons.
    destruct (Z.eqb_spec (getDayOfWeek a) 6) as [E | N].
    + apply IH; [done | ]. apply Forall_app. split; [done | ].
      apply Forall_singleton. split; [by rewrite length_insert | ].
      exists a. eapply list_elem_of_lookup_2.
      apply list_lookup_insert_eq. lia.
    + apply IH; [by rewrite length_insert | done].
Qed.

(** Slots only ever receive days of the list. *)
Lemma groupLoop_from_days (Q : string -> Prop) days ws cur :
  (forall w d, w ∈ ws -> Some d ∈ w -> Q d) ->
  (forall d, Some d ∈ cur -> Q d) ->
  (forall d, d ∈ days -> Q d) ->
  forall w d,
    w ∈ (groupLoop days ws cur).1 ++ [(groupLoop days ws cur).2] ->
    Some d ∈ w -> Q d.
Proof.
  revert ws cur. induction days as [ | a days IH]; intros ws cur Hws Hcur Hd w d.
  - simpl. rewrite elem_of_app, list_elem_of_singleton.
    intros [I | ->]; [by apply Hws | by apply Hcur].
  - assert (Hcur1 : forall d, Some d ∈ <[Z.to_nat (getDayOfWeek a) := Some a]> cur
                              -> Q d).
    { intros d0 I. apply elem_of_insert_week in I as [-> | I].
      - apply Hd. left.
      - by apply Hcur. }
    assert (Hd' : forall d, d ∈ days -> Q d) by (intros; apply Hd; by right).
    rewrite groupLoop_cons. destruct (getDayOfWeek a =? 6).
    + apply IH; [ | | done].
      * intros w0 d0. rewrite elem_of_app, list_elem_of_singleton.
        intros [I | ->]; [by apply Hws | by apply Hcur1].
      * intros d0 I. apply elem_of_replicate in I as [? _]. done.
    + by apply IH.
Qed.

Lemma realDays_all_null cur :
  (forall r x, cur !! r = Some x -> x = None) -> realDays cur = [].
Proof.
  induction cur as [ | c cur IH]; intros H; [done | ].
  rewrite (H 0%nat c eq_refl). unfold realDays in *. simpl.
  apply IH. intros r x Hr. by apply (H (S r)).
Qed.

(** Writing a day below every real day of the column appends it. *)
Lemma realDays_insert_fresh cur (i : nat) (x : string) :
  (i < length cur)%nat ->
  (forall r y, (i <= r)%nat -> cur !! r = Some y -> y = None) ->
  realDays (<[i := Some x]> cur) = realDays cur ++ [x].
Proof.
  revert i. induction cur as [ | c cur IH]; intros i L H; simpl in L; [lia | ].
  destruct i as [ | i].
  - rewrite (H 0%nat c (le_n _) eq_refl). unfold realDays. simpl.
    fold (realDays cur). rewrite realDays_all_null; [done | ].
    intros r y Hr. apply (H (S r)); [lia | done].
  - unfold realDays in *. simpl. destruct c as [c | ]; simpl.
    + f_equal. apply IH; [lia | ]. intros r y Hr. apply (H (S r)). lia.
    + apply IH; [lia | ]. intros r y Hr. apply (H (S r)). lia.
Qed.

(** Read column by column, the grid is the list of days. *)
Lemma groupLoop_realDays days ws cur :
  weekdayChain days -> length cur = 7%nat ->
  (forall d0 r y, head days = Some d0 ->
     (Z.to_nat (getDayOfWeek d0) <= r)%nat -> cur !! r = Some y -> y = None) ->
  concat (map realDays
            ((groupLoop days ws cur).1 ++ [(groupLoop days ws cur).2]))
  = concat (map realDays ws) ++ realDays cur ++ days.
Proof.
  revert ws cur. induction days as [ | a days IH]; intros ws cur C L F.
  - simpl. rewrite map_app, concat_app. simpl. by rewrite !app_nil_r.
  - pose proof (getDayOfWeek_range a) as Ra.
    assert (R1 : realDays (<[Z.to_nat (getDayOfWeek a) := Some a]> cur)
                 = realDays cur ++ [a]).
    { apply realDays_insert_fresh; [lia | ]. intros r y. by apply F. }
    rewrite groupLoop_cons. destruct (Z.eqb_spec (getDayOfWeek a) 6) as [E | N].
    + rewrite IH; [ | by eapply weekdayChain_tail | done | ].
      * rewrite map_app, concat_app. simpl. rewrite R1, app_nil_r.
        by rewrite <- !app_assoc.
      * intros d0 r y _ _ Hr. by apply lookup_replicate in Hr as [-> _].
    + rewrite IH; [ | by eapply weekdayChain_tail | by rewrite length_insert | ].
      * rewrite R1, <- !app_assoc. done.
      * intros d0 r y Hd0 Hr Hy. destruct days as [ | d' days]; [done | ].
        injection Hd0 as ->.
        rewrite (weekdayChain_next a d0 days C N) in Hr.
        rewrite list_lookup_insert_ne in Hy by lia.
        apply (F a r y eq_refl); [lia | done].
Qed.

Lemma groupWeeks_unfold days :
  groupWeeks days =
  if existsb isNonNull (groupLoop days [] emptyWeek).2
  then (groupLoop days [] emptyWeek).1 ++ [(groupLoop days [] emptyWeek).2]
  else (groupLoop days [] emptyWeek).1.
Proof. unfold groupWeeks. by destruct (groupLoop days [] emptyWeek). Qed.

(** A column that holds a day survives the final test. *)
Lemma groupWeeks_lookup days (k : nat) w :
  ((groupLoop days [] emptyWeek).1 ++ [(groupLoop days [] emptyWeek).2]) !! k
  = Some w ->
  (exists d, Some d ∈ w) ->
  groupWeeks days !! k = Some w.
Proof.
  intros H R. rewrite groupWeeks_unfold.
  destruct (existsb isNonNull (groupLoop days [] emptyWeek).2) eqn:E; [done | ].
  apply lookup_app_Some in H as [H | [_ H]]; [done | ].
  apply list_lookup_singleton_Some in H as [_ <-].
  apply isNonNull_exists in R. congruence.
Qed.

Lemma emptyWeek_lookup (r : nat) (y : option string) :
  emptyWeek !! r = Some y -> y = None.
Proof. intros H. by apply lookup_replicate in H as [-> _]. Qed.

(** The week columns of a list of consecutive days are as the spec says. *)
Lemma groupWeeks_columns days :
  weekdayChain days -> weekColumns days (groupWeeks days).
Proof.
  intros C. repeat split.
  - intros i d D.
    destruct (groupLoop_place days [] emptyWeek i d C eq_refl D) as (w & W1 & W2).
    exists w. split; [ | done].
    apply groupWeeks_lookup; [done | ].
    exists d. by eapply list_elem_of_lookup_2.
  - intros d0 r H0 Hr. pose proof (getDayOfWeek_range d0) as R0.
    destruct (groupLoop_keeps_row days [] emptyWeek r None C eq_refl)
      as (w & W1 & W2).
    { intros d Hd. congruence. }
    { apply lookup_replicate. split; [done | lia]. }
    destruct days as [ | a days]; [done | ]. injection H0 as ->.
    destruct (groupLoop_place (d0 :: days) [] emptyWeek 0 d0 C eq_refl eq_refl)
      as (w' & W1' & W2').
    rewrite sundaysBefore_0 in W1'. simpl length in *. simpl plus in W1'.
    assert (w' = w) by congruence. subst w'.
    exists w. split; [ | done].
    apply groupWeeks_lookup; [done | ].
    exists d0. by eapply list_elem_of_lookup_2.
  - exists (groupLoop days [] emptyWeek).1, (groupLoop days [] emptyWeek).2.
    split; [by destruct (groupLoop days [] emptyWeek) | ].
    split; [by rewrite groupLoop_closed_count | ].
    rewrite groupWeeks_unfold. split.
    + intros R. apply isNonNull_exists in R. by rewrite R.
    + intros R. rewrite <- isNonNull_exists in R.
      by destruct (existsb isNonNull (groupLoop days [] emptyWeek).2).
  - destruct (groupLoop_closed_real days [] emptyWeek eq_refl (Forall_nil_2 _))
      as [F L].
    rewrite groupWeeks_unfold in H.
    destruct (existsb isNonNull (groupLoop days [] emptyWeek).2) eqn:E.
    + apply elem_of_app in H as [H | H].
      * by apply (proj1 (Forall_forall _ _) F w).
      * apply list_elem_of_singleton in H. by subst w.
    + by apply (proj1 (Forall_forall _ _) F w).
  - destruct (groupLoop_closed_real days [] emptyWeek eq_refl (Forall_nil_2 _))
      as [F L].
    rewrite groupWeeks_unfold in H.
    destruct (existsb isNonNull (groupLoop days [] emptyWeek).2) eqn:E.
    + apply elem_of_app in H as [H | H].
      * by apply (proj1 (Forall_forall _ _) F w).
      * apply list_elem_of_singleton in H. subst w.
        by apply isNonNull_exists.
    + by apply (proj1 (Forall_forall _ _) F w).
Qed.

Lemma realDays_no_real cur :
  existsb isNonNull cur = false -> realDays cur = [].
Proof.
  intros E. apply realDays_all_null. intros r [d | ] Hr; [ | done].
  assert (R : existsb isNonNull cur = true).
  { apply isNonNull_exists. exists d. by eapply list_elem_of_lookup_2. }
  congruence.
Qed.

(** Read column by column, the grid gives back the days in order. *)
Lemma groupWeeks_realDays days :
  weekdayChain days -> concat (map realDays (groupWeeks days)) = days.
Proof.
  intros C.
  pose proof (groupLoop_realDays days [] emptyWeek C eq_refl) as G.
  rewrite groupWeeks_unfold.
  destruct (existsb isNonNull (groupLoop days [] emptyWeek).2) eqn:E.
  - rewrite G; [done | ]. intros d0 r y _ _. apply emptyWeek_lookup.
  - rewrite map_app, concat_app in G. simpl in G.
    rewrite (realDays_no_real _ E), !app_nil_r in G.
    rewrite G; [done | ]. intros d0 r y _ _. apply emptyWeek_lookup.
Qed.

Lemma groupWeeks_from_days days w (d : string) :
  w ∈ groupWeeks days -> Some d ∈ w -> d ∈ days.
Proof.
  intros Hw Hd.
  apply (groupLoop_from_days (fun d => d ∈ days) days [] emptyWeek) with w.
  - intros w0 d0 I. by apply elem_of_nil in I.
  - intros d0 I. apply elem_of_replicate in I as [? _]. done.
  - done.
  - rewrite groupWeeks_unfold in Hw.
    destruct (existsb isNonNull (groupLoop days [] emptyWeek).2); [done | ].
    apply elem_of_app. by left.
  - done.
Qed.

(** Days listed by a function whose weekday advances with its argument
    form a chain. *)
Lemma weekdayChain_seqZ (f : Z -> string) (c a n : Z) :
  (forall k, a <= k < a + n -> getDayOfWeek (f k) = (c + k) mod 7) ->
  weekdayChain (map f (seqZ a n)).
Proof.
  intros H.
  assert (E : exists m : nat, n <= Z.of_nat m) by (exists (Z.to_nat n); lia).
  destruct E as [m Hm]. revert a n H Hm.
  induction m as [ | m IH]; intros a n H Hm.
  - by rewrite seqZ_nil by lia.
  - destruct (Z.le_gt_cases n 0) as [L | G]; [by rewrite seqZ_nil by lia | ].
    rewrite seqZ_cons by lia. cbn [map weekdayChain]. split.
    + destruct (Z.le_gt_cases (Z.pred n) 0) as [L1 | G1];
        [by rewrite seqZ_nil by lia | ].
      rewrite seqZ_cons by lia. cbn [map].
      rewrite !H by lia. rewrite Zplus_mod_idemp_l. f_equal. lia.
    + apply IH; [ | lia]. intros k Hk. apply H. lia.
Qed.

End WeekColumns.

(** ** Computations that read the clock *)

Section ClockRuns.

Context {A B : Type}.

Lemma mapM_clock_cons (f : A -> Clock B) (x : A) (l : list A) (t : nat) :
  mapM f (x :: l) t =
  ((f x t).1 :: (mapM f l (f x t).2).1, (mapM f l (f x t).2).2).
Proof.
  cbn [mapM]. unfold mbind, clock_bind, mret, clock_ret.
  destruct (f x t) as [y t1]. cbn [fst snd].
  by destruct (mapM f l t1) as [k t2].
Qed.

(** What holds of every single run holds slot by slot of a mapped run. *)
Lemma mapM_clock_Forall2 (f : A -> Clock B) (P : A -> B -> Prop)
    (l : list A) (t : nat) :
  (forall x t, P x (f x t).1) -> Forall2 P l (mapM f l t).1.
Proof.
  intros H. revert t. induction l as [ | x l IH]; intros t.
  - constructor.
  - rewrite mapM_clock_cons. cbn [fst]. constructor; [apply H | apply IH].
Qed.

(** Runs that agree slot by slot, at whatever reading they start, agree
    as a whole. *)
Lemma mapM_clock_ext (f g : A -> Clock B) (l : list A) (t t' : nat) :
  (forall x t t', (f x t).1 = (g x t').1) ->
  (mapM f l t).1 = (mapM g l t').1.
Proof.
  intros H. revert t t'. induction l as [ | x l IH]; intros t t'.
  - done.
  - rewrite !mapM_clock_cons. cbn [fst]. f_equal; [apply H | apply IH].
Qed.

End ClockRuns.

Lemma elem_of_concat {A : Type} (x : A) (ls : list (list A)) :
  x ∈ concat ls <-> exists l, l ∈ ls /\ x ∈ l.
Proof.
  rewrite list_elem_of_In, in_concat. split.
  - intros (l & I1 & I2). exists l. by rewrite !list_elem_of_In.
  - intros (l & I1 & I2). exists l. by rewrite <- !list_elem_of_In.
Qed.

Section Rendering.

Variable clk : nat -> Date.
Variable visits : list string.

Lemma isFutureDate_run (dateStr : string) (t : nat) :
  isFutureDate clk dateStr t = (stringGt dateStr (formatDate (clk t)), S t).
Proof. reflexivity. Qed.

Lemma renderDay_drawn (day : option string) (t : nat) :
  drawnFrom clk visits day (renderDay clk visits day t).1.
Proof.
  destruct day as [s | ]; [ | done]. unfold renderDay.
  destruct (truthy s); [ | done]. cbn.
  split; [done | split; [done | by exists t]].
Qed.

Lemma renderDay_real (d : string) (t : nat) :
  truthy d = true ->
  (renderDay clk visits (Some d) t).1 =
  Some (mkDayCell d (hasVisit visits d) (stringGt d (formatDate (clk t)))).
Proof. intros T. unfold renderDay. by rewrite T. Qed.

(** The cells of a week row come from its slots. *)
Lemma week_cells_drawn (w : Week) (t : nat) (c : DayCell) :
  c ∈ weekCells (mapM (renderDay clk visits) w t).1 ->
  exists day, day ∈ w /\ drawnFrom clk visits day (Some c).
Proof.
  intros I. apply list_elem_of_omap in I as (x & I & E). simpl in E. subst x.
  apply list_elem_of_lookup in I as [i Hi].
  pose proof (mapM_clock_Forall2 (renderDay clk visits)
                (drawnFrom clk visits) w t renderDay_drawn) as F.
  destruct (Forall2_lookup_r _ _ _ _ _ F Hi) as (day & Hd & D).
  exists day. split; [by eapply list_elem_of_lookup_2 | done].
Qed.

(** The cells of the column-by-column markup come from the columns. *)
Lemma columns_cells_drawn (weeks : list Week) (t : nat) (c : DayCell) :
  Some c ∈ concat (mapM (mapM (renderDay clk visits)) weeks t).1 ->
  exists w, w ∈ weeks /\ Some (date c) ∈ w /\
            drawnFrom clk visits (Some (date c)) (Some c).
Proof.
  intros I. apply elem_of_concat in I as (col & Hcol & Hc).
  apply list_elem_of_lookup in Hcol as [i Hi].
  pose proof (mapM_clock_Forall2 (mapM (renderDay clk visits))
                (fun w col => Forall2 (drawnFrom clk visits) w col) weeks t
                (fun w t => mapM_clock_Forall2 _ _ w t renderDay_drawn)) as F.
  destruct (Forall2_lookup_r _ _ _ _ _ F Hi) as (w & Hw & Fw).
  apply list_elem_of_lookup in Hc as [j Hj].
  destruct (Forall2_lookup_r _ _ _ _ _ Fw Hj) as (day & Hd & D).
  exists w. pose proof D as (E & _). subst day.
  split; [by eapply list_elem_of_lookup_2 | ].
  split; [by eapply list_elem_of_lookup_2 | done].
Qed.

(** The cells of the row-by-row markup come from the columns too. *)
Lemma rows_cells_drawn (weeks : list Week) (idx : list nat) (t : nat)
    (c : DayCell) :
  Some c ∈ concat
    (mapM (fun dayIndex =>
             mapM (fun week : Week =>
                     renderDay clk visits (mjoin (week !! dayIndex))) weeks)
          idx t).1 ->
  exists w, w ∈ weeks /\ Some (date c) ∈ w /\
            drawnFrom clk visits (Some (date c)) (Some c).
Proof.
  intros I. apply elem_of_concat in I as (row & Hrow & Hc).
  apply list_elem_of_lookup in Hrow as [i Hi].
  pose proof (mapM_clock_Forall2
                (fun dayIndex =>
                   mapM (fun week : Week =>
                           renderDay clk visits (mjoin (week !! dayIndex))) weeks)
                (fun dayIndex row =>
                   Forall2 (fun (week : Week) cell =>
                              drawnFrom clk visits (mjoin (week !! dayIndex)) cell)
                           weeks row) idx t
                (fun dayIndex t =>
                   mapM_clock_Forall2 _
                     (fun (week : Week) cell =>
                        drawnFrom clk visits (mjoin (week !! dayIndex)) cell)
                     weeks t (fun week t => renderDay_drawn _ t))) as F.
  destruct (Forall2_lookup_r _ _ _ _ _ F Hi) as (dayIndex & _ & Fw).
  apply list_elem_of_lookup in Hc as [j Hj].
  destruct (Forall2_lookup_r _ _ _ _ _ Fw Hj) as (w & Hw & D).
  exists w. pose proof D as (E & _).
  split; [by eapply list_elem_of_lookup_2 | ].
  split; [ | by rewrite <- E].
  destruct (w !! dayIndex) as [slot | ] eqn:S; [ | done].
  simpl in E. subst slot. by eapply list_elem_of_lookup_2.
Qed.

End Rendering.

(** ** The days of the month and of the year *)

Section PeriodDays.

Lemma validDate_midnight (y m dt : Z) :
  0 <= m <= 11 -> 1 <= dt <= DaysInMonth y m -> validDate (mkDate y m dt 0).
Proof. intros Hm Hd. unfold validDate, msPerDay. simpl. lia. Qed.

Lemma getFullMonthDays_run (clk : nat -> Date) (t : nat) :
  100 <= getFullYear (clk t) -> 0 <= getMonth (clk t) <= 11 ->
  getFullMonthDays clk t = (map formatDate (monthDates (clk t)), S t).
Proof.
  intros Hy Hm. unfold getFullMonthDays, newDate, mbind, clock_bind,
    mret, clock_ret. f_equal.
  rewrite newDateYMD_lastDay by done. cbn [getDate].
  unfold monthDates. rewrite map_map. apply map_ext_in.
  intros k Hk. apply list_elem_of_In, elem_of_seqZ in Hk.
  rewrite newDateYMD_valid; [done | done | done | lia].
Qed.

Lemma monthDates_elem (now d : Date) :
  d ∈ monthDates now ->
  exists day, 1 <= day <= DaysInMonth (getFullYear now) (getMonth now) /\
              d = mkDate (getFullYear now) (getMonth now) day 0.
Proof.
  intros I. apply list_elem_of_In, in_map_iff in I as (day & <- & I).
  apply list_elem_of_In, elem_of_seqZ in I. exists day. split; [lia | done].
Qed.

Lemma monthDays_chain (now : Date) :
  wellFormed now -> weekdayChain (map formatDate (monthDates now)).
Proof.
  intros [(Hm & _ & _) Hy]. unfold monthDates. rewrite map_map.
  apply weekdayChain_seqZ
    with (c := DayFromYear (getFullYear now)
               + DayWithinYear (getFullYear now) (getMonth now) + 2).
  intros k Hk. rewrite getDayOfWeek_formatDate.
  - unfold Day. cbn [getFullYear getMonth getDate]. f_equal. lia.
  - split; [apply validDate_midnight; [done | lia] | done].
Qed.

Lemma monthGridData_run (clk : nat -> Date) (t : nat) :
  100 <= getFullYear (clk (S t)) -> 0 <= getMonth (clk (S t)) <= 11 ->
  (monthGridData clk t).1 =
  (nth (Z.to_nat (getMonth (clk t))) FULL_MONTH_NAMES ""%string,
   groupWeeks (map formatDate (monthDates (clk (S t))))).
Proof.
  intros Hy Hm. unfold monthGridData, mbind, clock_bind, newDate.
  rewrite getFullMonthDays_run by done. reflexivity.
Qed.

Lemma addDays_0 (d : Date) : addDays d 0 = d.
Proof. reflexivity. Qed.

Lemma addDays_addDays (d : Date) (a b : Z) :
  validDate d -> addDays (addDays d a) b = addDays d (a + b).
Proof.
  intros V.
  destruct (addDays_spec d a V) as (A1 & A2 & A3).
  destruct (addDays_spec (addDays d a) b A1) as (B1 & B2 & B3).
  destruct (addDays_spec d (a + b) V) as (C1 & C2 & C3).
  apply validDate_eq; [done | done | lia | congruence].
Qed.

(** The loop over a year lists one day after the other up to the end. *)
Lemma yearLoop_run (d0 endDate : Date) (n : nat) :
  validDate d0 -> msInDay d0 = msInDay endDate ->
  forall (fuel : nat) (a : Z) (acc : list string),
    Day endDate - Day (addDays d0 a) + 1 = Z.of_nat n ->
    (n < fuel)%nat ->
    yearLoop fuel (addDays d0 a) endDate acc =
    Some (acc ++ map (fun k => formatDate (addDays d0 k)) (seqZ a (Z.of_nat n))).
Proof.
  intros V Ms. induction n as [ | n IH]; intros fuel a acc E F.
  - destruct fuel as [ | fuel]; [lia | ]. cbn [yearLoop].
    destruct (addDays_spec d0 a V) as (A1 & A2 & A3).
    unfold localTime.
    destruct (Z.leb_spec (Day (addDays d0 a) * msPerDay + msInDay (addDays d0 a))
                         (Day endDate * msPerDay + msInDay endDate)) as [L | L].
    + unfold msPerDay in *. lia.
    + rewrite seqZ_nil by lia. simpl. by rewrite app_nil_r.
  - destruct fuel as [ | fuel]; [lia | ]. cbn [yearLoop].
    destruct (addDays_spec d0 a V) as (A1 & A2 & A3).
    unfold localTime.
    destruct (Z.leb_spec (Day (addDays d0 a) * msPerDay + msInDay (addDays d0 a))
                         (Day endDate * msPerDay + msInDay endDate)) as [L | L].
    + rewrite setDate_shift, addDays_addDays by done.
      destruct (addDays_spec d0 (a + 1) V) as (B1 & B2 & B3).
      rewrite IH by lia.
      rewrite (seqZ_cons a (Z.of_nat (S n))) by lia. cbn [map].
      replace (Z.succ a) with (a + 1) by lia.
      replace (Z.pred (Z.of_nat (S n))) with (Z.of_nat n) by lia.
      by rewrite <- app_assoc.
    + unfold msPerDay in *. lia.
Qed.

Lemma yearLength (y : Z) :
  Day (mkDate y 11 31 0) - Day (mkDate y 0 1 0) + 1 =
  if InLeapYear y then 366 else 365.
Proof.
  unfold Day. cbn [getFullYear getMonth getDate].
  pose proof (DayWithinYear_last y). change (DayWithinYear y 0) with 0.
  destruct (InLeapYear y); lia.
Qed.

Lemma getFullYearDays_run (clk : nat -> Date) (fuel t : nat) :
  100 <= getFullYear (clk t) -> (yearFuel <= fuel)%nat ->
  getFullYearDays clk fuel t = (Some (map formatDate (yearDates (clk t))), S t).
Proof.
  intros Hy F. unfold getFullYearDays, newDate, mbind, clock_bind, mret, clock_ret.
  f_equal. set (y := getFullYear (clk t)).
  rewrite !newDateYMD_valid by (done || (cbn; lia)).
  assert (V : validDate (mkDate y 0 1 0))
    by (apply validDate_midnight; cbn; lia).
  pose proof (yearLoop_run (mkDate y 0 1 0) (mkDate y 11 31 0)
                (Z.to_nat (if InLeapYear y then 366 else 365)) V eq_refl
                fuel 0 []) as R.
  rewrite addDays_0 in R. rewrite R.
  - unfold yearDates. fold y. rewrite map_map. simpl. f_equal.
    f_equal. destruct (InLeapYear y); reflexivity.
  - rewrite yearLength. destruct (InLeapYear y); lia.
  - unfold yearFuel in F. destruct (InLeapYear y); lia.
Qed.

(** A valid date whose day number lies within year [y] is of year [y]. *)
Lemma year_of_Day (d : Date) (y : Z) :
  validDate d -> DayFromYear y <= Day d < DayFromYear (y + 1) ->
  getFullYear d = y.
Proof.
  intros V [L U].
  assert (V0 : validDate (mkDate y 0 1 0))
    by (apply validDate_midnight; cbn; lia).
  assert (V1 : validDate (mkDate (y + 1) 0 1 0))
    by (apply validDate_midnight; cbn; lia).
  pose proof (Day_lt_civilLt d (mkDate y 0 1 0) V V0) as P0.
  pose proof (Day_lt_civilLt d (mkDate (y + 1) 0 1 0) V V1) as P1.
  unfold Day at 2 in P0. unfold Day at 2 in P1.
  cbn [getFullYear getMonth getDate] in P0, P1.
  change (DayWithinYear y 0) with 0 in P0.
  change (DayWithinYear (y + 1) 0) with 0 in P1.
  destruct V as (Hm & Hd & _). unfold civilLt in *.
  cbn [getFullYear getMonth getDate] in P0, P1.
  assert (N0 : ~ Day d < DayFromYear y + 0 + 1 - 1) by lia.
  assert (Y1 : Day d < DayFromYear (y + 1) + 0 + 1 - 1) by lia.
  rewrite P0 in N0. rewrite P1 in Y1. lia.
Qed.

Lemma yearDates_elem (now d : Date) :
  d ∈ yearDates now ->
  validDate d /\ getFullYear d = getFullYear now /\ msInDay d = 0 /\
  Day (mkDate (getFullYear now) 0 1 0) <= Day d
  <= Day (mkDate (getFullYear now) 11 31 0).
Proof.
  intros I. apply list_elem_of_In, in_map_iff in I as (k & <- & I).
  apply list_elem_of_In, elem_of_seqZ in I.
  set (y := getFullYear now) in *.
  assert (V : validDate (mkDate y 0 1 0))
    by (apply validDate_midnight; cbn; lia).
  destruct (addDays_spec _ k V) as (A1 & A2 & A3).
  pose proof (yearLength y) as YL.
  assert (B : Day (mkDate y 0 1 0) <= Day (addDays (mkDate y 0 1 0) k)
              <= Day (mkDate y 11 31 0)) by lia.
  split; [done | ]. split; [ | done].
  apply year_of_Day; [done | ].
  rewrite DayFromYear_succ.
  assert (D0 : Day (mkDate y 0 1 0) = DayFromYear y).
  { unfold Day. cbn [getFullYear getMonth getDate].
    change (DayWithinYear y 0) with 0. lia. }
  destruct (InLeapYear y); lia.
Qed.

Lemma yearDays_chain (now : Date) :
  0 <= getFullYear now <= 9999 ->
  weekdayChain (map formatDate (yearDates now)).
Proof.
  intros Hy. unfold yearDates. rewrite map_map.
  apply weekdayChain_seqZ
    with (c := Day (mkDate (getFullYear now) 0 1 0) + 3).
  intros k Hk.
  assert (I : addDays (mkDate (getFullYear now) 0 1 0) k ∈ yearDates now).
  { apply list_elem_of_In, in_map_iff. exists k. split; [done | ].
    apply list_elem_of_In, elem_of_seqZ. lia. }
  apply yearDates_elem in I as (V & Y & _).
  rewrite getDayOfWeek_formatDate by (split; [done | lia]).
  assert (V0 : validDate (mkDate (getFullYear now) 0 1 0))
    by (apply validDate_midnight; cbn; lia).
  destruct (addDays_spec _ k V0) as (_ & A2 & _).
  rewrite A2. f_equal. lia.
Qed.

Lemma yearGridData_run (clk : nat -> Date) (fuel t : nat) :
  100 <= getFullYear (clk (S t)) -> (yearFuel <= fuel)%nat ->
  (yearGridData clk fuel t).1 =
  Some (mkYearData (getFullYear (clk t))
          (groupWeeks (map formatDate (yearDates (clk (S t)))))
          (monthLabelsLoop
             (groupWeeks (map formatDate (yearDates (clk (S t)))))
             ""%string [])).
Proof.
  intros Hy F. unfold yearGridData, mbind, clock_bind, newDate.
  rewrite getFullYearDays_run by done. reflexivity.
Qed.

End PeriodDays.

(** ** The three grids as runs *)

Section GridRuns.

Variable clk : nat -> Date.
Variable visits days : list string.

Lemma MonthGrid_run (t : nat) :
  result (MonthGrid clk visits days) t =
  mkMonthView (monthGridData clk t).1.1
    (mapM (mapM (renderDay clk visits)) (monthGridData clk t).1.2
          (monthGridData clk t).2).1.
Proof.
  unfold result, MonthGrid, mbind, clock_bind.
  destruct (monthGridData clk t) as [[name weeks] t']. cbn [fst snd].
  by destruct (mapM (mapM (renderDay clk visits)) weeks t').
Qed.

Lemma YearGrid_run (fuel t : nat) (data : YearData) :
  (yearGridData clk fuel t).1 = Some data ->
  result (YearGrid clk fuel visits days) t =
  Some (mkYearView (currentYear data) (monthLabels data)
          (mapM (fun dayIndex =>
                   mapM (fun week : Week =>
                           renderDay clk visits (mjoin (week !! dayIndex)))
                        (allWeeks data))
                (seq 0 (length DAY_LABELS)) (yearGridData clk fuel t).2).1).
Proof.
  unfold result, YearGrid, mbind, clock_bind.
  destruct (yearGridData clk fuel t) as [o t']. cbn [fst snd]. intros ->.
  by destruct (mapM (M:=Clock) _ _ t').
Qed.

End GridRuns.

(** ** The week row *)

Section WeekRow.

(** Where the local zone is at or east of Greenwich, the row is the
    Monday-to-Sunday week of the first day. *)
Lemma getFullWeekDays_east_of_Greenwich (tz : Z) (d : Date)
    (rest : list string) :
  0 <= tz < 1440 -> wellFormed d ->
  exists monday,
    validDate monday /\ getDay monday = 1 /\
    Day monday <= Day d <= Day monday + 6 /\
    getFullWeekDays tz (formatDate d :: rest) =
    map (fun i => Some (formatDate (addDays monday i))) (seqZ 0 7).
Proof.
  intros Htz W. pose proof W as [(Hm & Hd & Hs) Hy].
  unfold getFullWeekDays.
  assert (F : newDateString tz (formatDate d) =
              mkDate (getFullYear d) (getMonth d) (getDate d)
                     (tz * msPerMinute)).
  { unfold newDateString. rewrite civilOfString_formatDate by done.
    cbn [getFullYear getMonth getDate].
    rewrite Z.div_small, Z.mod_small by (unfold msPerMinute, msPerDay; lia).
    apply addDays_0. }
  rewrite F.
  set (firstDay := mkDate (getFullYear d) (getMonth d) (getDate d)
                          (tz * msPerMinute)).
  assert (V : validDate firstDay).
  { unfold validDate, firstDay, msPerMinute, msPerDay.
    cbn [getFullYear getMonth getDate msInDay]. lia. }
  assert (D : Day firstDay = Day d) by reflexivity.
  set (off := if getDay firstDay =? 0 then -6 else 1 - getDay firstDay).
  rewrite setDate_shift by done.
  destruct (addDays_spec firstDay off V) as (A1 & A2 & A3).
  exists (addDays firstDay off).
  assert (O : (Day d + off + 4) mod 7 = 1 /\ -6 <= off <= 0).
  { unfold off, getDay. rewrite D.
    destruct (Z.eqb_spec ((Day d + 4) mod 7) 0);
      Z.div_mod_to_equations; lia. }
  split; [done | ]. split; [unfold getDay; rewrite A2, D; apply O | ].
  split; [lia | ].
  apply map_ext. intros i. by rewrite setDate_shift.
Qed.

(** West of Greenwich the row built from a Monday is the week before
    it: the date-only string is read as midnight UTC, a Sunday evening in
    local time. *)
Lemma getFullWeekDays_west_of_Greenwich (tz : Z) (d : Date)
    (rest : list string) :
  -1440 < tz < 0 -> wellFormed d -> getDay d = 1 ->
  getFullWeekDays tz (formatDate d :: rest) =
  map (fun i => Some (formatDate (addDays d (i - 7)))) (seqZ 0 7).
Proof.
  intros Htz W Mon. pose proof W as [V Hy]. pose proof V as (Hm & Hd & Hs).
  unfold getFullWeekDays.
  set (base := mkDate (getFullYear d) (getMonth d) (getDate d)
                      (tz * msPerMinute + msPerDay)).
  assert (F : newDateString tz (formatDate d) = addDays base (-1)).
  { unfold newDateString, base. rewrite civilOfString_formatDate by done.
    cbn [getFullYear getMonth getDate].
    assert (Q : (tz * msPerMinute) / msPerDay = -1 /\
                (tz * msPerMinute) mod msPerDay = tz * msPerMinute + msPerDay).
    { unfold msPerMinute, msPerDay. Z.div_mod_to_equations. lia. }
    destruct Q as [-> ->]. done. }
  rewrite F.
  assert (Vb : validDate base).
  { unfold validDate, base, msPerMinute, msPerDay.
    cbn [getFullYear getMonth getDate msInDay]. lia. }
  assert (Db : Day base = Day d) by reflexivity.
  destruct (addDays_spec base (-1) Vb) as (A1 & A2 & A3).
  assert (G : getDay (addDays base (-1)) = 0).
  { unfold getDay in *. rewrite A2, Db. Z.div_mod_to_equations. lia. }
  rewrite G. cbn [Z.eqb]. rewrite setDate_shift by done.
  destruct (addDays_spec (addDays base (-1)) (-6) A1) as (B1 & B2 & B3).
  apply map_ext. intros i. rewrite setDate_shift by done. f_equal.
  destruct (addDays_spec (addDays (addDays base (-1)) (-6)) i B1)
    as (C1 & C2 & C3).
  destruct (addDays_spec d (i - 7) V) as (D1 & D2 & D3).
  apply formatDate_sameDay, Day_inj; [done | done | lia].
Qed.

(** C9.  With no period days, [getFullWeekDays] returns a row of seven
    nulls; it raises nothing. *)
Theorem C9_getFullWeekDays_empty (tz : Z) :
  getFullWeekDays tz [] = [None; None; None; None; None; None; None] /\
  length (getFullWeekDays tz []) = 7%nat.
Proof. split; reflexivity. Qed.

(** C3, at a zone west of Greenwich.  Five hours behind UTC, the row built
    from Monday 2024-03-11 is the week of 2024-03-04: the date-only string
    is read as midnight UTC, which is still Sunday evening locally, so the
    row is the week before and does not contain the day it was built
    from. *)
Theorem C3_getFullWeekDays_west_of_Greenwich :
  getDay (civilOfString "2024-03-11") = 1 /\
  getFullWeekDays (-300) ["2024-03-11"%string] =
    [Some "2024-03-04"; Some "2024-03-05"; Some "2024-03-06";
     Some "2024-03-07"; Some "2024-03-08"; Some "2024-03-09";
     Some "2024-03-10"]%string /\
  Some "2024-03-11"%string ∉ getFullWeekDays (-300) ["2024-03-11"%string].
Proof.
  split; [reflexivity | ]. split; [vm_compute; reflexivity | ].
  intros H. apply list_elem_of_In in H. vm_compute in H.
  repeat (destruct H as [H | H]; [discriminate H | ]). exact H.
Qed.

End WeekRow.

(** ** The future test *)

Section FutureTest.

Lemma dateKey_lt (a b : Date) :
  validDate a -> validDate b -> civilLt a b ->
  getFullYear a * 10000 + (getMonth a + 1) * 100 + getDate a <
  getFullYear b * 10000 + (getMonth b + 1) * 100 + getDate b.
Proof.
  intros Va Vb L.
  pose proof (DaysInMonth_le_31 a Va). pose proof (DaysInMonth_le_31 b Vb).
  destruct Va as (Ma & _ & _), Vb as (Mb & _ & _). unfold civilLt in L. lia.
Qed.

(** On formatted dates, comparing the strings is comparing the days. *)
Lemma compare_formatDate_Day (a b : Date) :
  wellFormed a -> wellFormed b ->
  String.compare (formatDate a) (formatDate b) = (Day a ?= Day b).
Proof.
  intros Wa Wb. rewrite compare_formatDate by done.
  destruct Wa as [Va _], Wb as [Vb _].
  destruct (Z.compare_spec (Day a) (Day b)) as [E | L | L].
  - destruct (Day_inj a b Va Vb E) as (-> & -> & ->). apply Z.compare_refl.
  - apply Z.compare_lt_iff, dateKey_lt; try done. by apply Day_lt_civilLt.
  - apply Z.compare_gt_iff, dateKey_lt; try done. by apply Day_lt_civilLt.
Qed.

Lemma stringGt_formatDate_Day (a b : Date) :
  wellFormed a -> wellFormed b ->
  stringGt (formatDate a) (formatDate b) = true <-> Day b < Day a.
Proof.
  intros Wa Wb. unfold stringGt. rewrite compare_formatDate_Day by done.
  destruct (Z.compare_spec (Day a) (Day b)); split; intros; try done; lia.
Qed.

(** C7.  [isFutureDate(d)] is true exactly when [d] compares lexically
    greater than today's formatted date, and on well-formed zero-padded
    dates the lexical comparison is the chronological one. *)
Theorem C7_isFutureDate_lexical (clk : nat -> Date) (t : nat)
    (dateStr : string) :
  (result (isFutureDate clk dateStr) t = true <->
   String.compare dateStr (formatDate (clk t)) = Gt) /\
  (forall a b : Date, wellFormed a -> wellFormed b ->
     String.compare (formatDate a) (formatDate b) = (Day a ?= Day b)).
Proof.
  split.
  - unfold result. rewrite isFutureDate_run. cbn [fst]. unfold stringGt.
    destruct (String.compare dateStr (formatDate (clk t))); split; done.
  - apply compare_formatDate_Day.
Qed.

(** C7 on 2024-03-10: the string of 2024-03-11 is after today's. *)
Lemma C7_isFutureDate_lexical_witness :
  result (isFutureDate (fun _ => mkDate 2024 2 10 0) "2024-03-11") 0 = true /\
  String.compare (formatDate (mkDate 2024 2 11 0))
                 (formatDate (mkDate 2024 2 10 0)) = Gt.
Proof.
  destruct (C7_isFutureDate_lexical (fun _ => mkDate 2024 2 10 0) 0
              "2024-03-11") as [H1 H2].
  split.
  - apply H1. reflexivity.
  - rewrite H2; [reflexivity | | ]; concrete_date.
Defined.

End FutureTest.

(** ** Month and year composition *)

Section Composition.

Lemma formatDate_monthDates_inj (now a b : Date) :
  a ∈ monthDates now -> b ∈ monthDates now ->
  formatDate a = formatDate b -> a = b.
Proof.
  intros Ia Ib E.
  apply monthDates_elem in Ia as (da & Ha & ->).
  apply monthDates_elem in Ib as (db & Hb & ->).
  pose proof (DaysInMonth_range (getFullYear now) (getMonth now)).
  assert (P : pad2 da = pad2 db).
  { rewrite !formatDate_chars in E. cbn [getDate] in E.
    unfold pad2. congruence. }
  assert (N : numberOf 0 (pad2 da) = numberOf 0 (pad2 db)) by congruence.
  rewrite !numberOf_pad2 in N by lia. by subst.
Qed.

Lemma monthDates_length (now : Date) :
  length (monthDates now) =
  Z.to_nat (DaysInMonth (getFullYear now) (getMonth now)).
Proof. unfold monthDates. by rewrite length_map, length_seqZ. Qed.

Lemma monthDates_lookup (now d : Date) (i : nat) :
  monthDates now !! i = Some d ->
  d = mkDate (getFullYear now) (getMonth now) (1 + Z.of_nat i) 0 /\
  Z.of_nat i < DaysInMonth (getFullYear now) (getMonth now).
Proof.
  unfold monthDates. change (map ?f ?l) with (f <$> l).
  rewrite list_lookup_fmap. intros H.
  destruct (seqZ _ _ !! i) as [k | ] eqn:K; [ | done].
  apply lookup_seqZ in K as [-> K]. simpl in H. by injection H as <-.
Qed.

(** C5.  Read column by column, without the null padding, the month grid
    is the list of the days 1 to the last of the current month, each once
    and in calendar order; the last day is the real length of the month,
    29 for February in a leap year. *)
Theorem C5_month_grid_days (clk : nat -> Date) (t : nat) :
  clockDate (clk (S t)) ->
  let now := clk (S t) in
  let weeks := (result (monthGridData clk) t).2 in
  concat (map realDays weeks) = map formatDate (monthDates now) /\
  NoDup (map formatDate (monthDates now)) /\
  length (monthDates now)
    = Z.to_nat (DaysInMonth (getFullYear now) (getMonth now)) /\
  (forall i d, monthDates now !! i = Some d ->
     d = mkDate (getFullYear now) (getMonth now) (1 + Z.of_nat i) 0) /\
  (forall i j a b, monthDates now !! i = Some a -> monthDates now !! j = Some b ->
     (i < j)%nat -> Day a < Day b) /\
  DaysInMonth (getFullYear now) 1
    = (if InLeapYear (getFullYear now) then 29 else 28).
Proof.
  intros [W Hy] now weeks. pose proof W as [(Hm & _ & _) _].
  split; [ | split; [ | split; [ | split; [ | split]]]].
  - unfold weeks, result. rewrite monthGridData_run by done. cbn [snd].
    apply groupWeeks_realDays. by apply monthDays_chain.
  - change (map formatDate (monthDates now))
      with (formatDate <$> monthDates now).
    apply NoDup_fmap_2_strong.
    + intros a b. apply formatDate_monthDates_inj.
    + unfold monthDates. change (map ?f ?l) with (f <$> l).
      apply NoDup_fmap_2_strong; [ | apply NoDup_seqZ].
      intros a b _ _ E. by injection E.
  - apply monthDates_length.
  - intros i d H. by apply monthDates_lookup in H as [-> _].
  - intros i j a b Ha Hb L.
    apply monthDates_lookup in Ha as [-> _].
    apply monthDates_lookup in Hb as [-> _].
    unfold Day. cbn [getFullYear getMonth getDate]. lia.
  - reflexivity.
Qed.

(** C5 in February 2024: the grid spells out 29 days. *)
Lemma C5_month_grid_days_witness :
  concat (map realDays
            (result (monthGridData (fun _ => mkDate 2024 1 10 0)) 0).2)
  = map formatDate (monthDates (mkDate 2024 1 10 0)) /\
  length (monthDates (mkDate 2024 1 10 0)) = 29%nat.
Proof.
  assert (W : clockDate (mkDate 2024 1 10 0))
    by concrete_date.
  destruct (C5_month_grid_days (fun _ => mkDate 2024 1 10 0) 0 W)
    as (H1 & _ & H3 & _).
  split; [exact H1 | exact H3].
Defined.

(** C4.  In the month and the year grid a column is closed exactly after
    a Sunday, the first column is null above the first day, and the column
    left open at the end is kept exactly when it holds a day. *)
Theorem C4_week_columns (clk : nat -> Date) (fuel t : nat) :
  clockDate (clk (S t)) -> (yearFuel <= fuel)%nat ->
  weekColumns (result (getFullMonthDays clk) (S t))
              (result (monthGridData clk) t).2 /\
  exists allYearDays data,
    result (getFullYearDays clk fuel) (S t) = Some allYearDays /\
    result (yearGridData clk fuel) t = Some data /\
    weekColumns allYearDays (allWeeks data).
Proof.
  intros [W H100] F. pose proof W as [(Hm & _ & _) Hy]. split.
  - unfold result. rewrite monthGridData_run, getFullMonthDays_run by done.
    cbn [fst snd]. apply groupWeeks_columns. by apply monthDays_chain.
  - unfold result. rewrite yearGridData_run, getFullYearDays_run by done.
    cbn [fst]. eexists _, _. split; [done | ]. split; [done | ].
    cbn [allWeeks]. apply groupWeeks_columns. by apply yearDays_chain.
Qed.

(** C4 in March 2024. *)
Lemma C4_week_columns_witness :
  weekColumns (result (getFullMonthDays (fun _ => mkDate 2024 2 10 0)) 1)
              (result (monthGridData (fun _ => mkDate 2024 2 10 0)) 0).2.
Proof.
  assert (W : clockDate (mkDate 2024 2 10 0))
    by concrete_date.
  assert (F : (yearFuel <= 400)%nat) by (unfold yearFuel; lia).
  exact (proj1 (C4_week_columns (fun _ => mkDate 2024 2 10 0) 400 0 W F)).
Defined.

End Composition.

(** ** The cells of the grids *)

Section Cells.

Variable clk : nat -> Date.
Variable visits days : list string.

Lemma monthCells_drawn (t : nat) (c : DayCell) :
  c ∈ monthCells (result (MonthGrid clk visits days) t) ->
  exists w, w ∈ (monthGridData clk t).1.2 /\ Some (date c) ∈ w /\
            drawnFrom clk visits (Some (date c)) (Some c).
Proof.
  rewrite MonthGrid_run. unfold monthCells. cbn [monthColumns].
  intros I. apply list_elem_of_omap in I as (x & I & E). simpl in E. subst x.
  by apply columns_cells_drawn in I.
Qed.

Lemma yearCells_drawn (fuel t : nat) (v : YearView) (c : DayCell) :
  result (YearGrid clk fuel visits days) t = Some v ->
  c ∈ yearCells v ->
  exists data w,
    (yearGridData clk fuel t).1 = Some data /\ w ∈ allWeeks data /\
    Some (date c) ∈ w /\ drawnFrom clk visits (Some (date c)) (Some c).
Proof.
  intros R I.
  destruct ((yearGridData clk fuel t).1) as [data | ] eqn:D.
  - rewrite (YearGrid_run clk visits days fuel t data D) in R.
    apply (inj Some) in R. subst v. unfold yearCells in I.
    change (yearRows (mkYearView ?a ?b ?r)) with r in I.
    apply list_elem_of_omap in I as (x & I & E). simpl in E. subst x.
    apply rows_cells_drawn in I as (w & I1 & I2 & I3).
    by exists data, w.
  - unfold result, YearGrid, mbind, clock_bind in R.
    destruct (yearGridData clk fuel t) as [o t']. simpl in D. subst o.
    done.
Qed.

Lemma weekCells_drawn (tz : Z) (t : nat) (c : DayCell) :
  c ∈ weekCells (result (WeekGrid clk tz visits days) t) ->
  drawnFrom clk visits (Some (date c)) (Some c).
Proof.
  unfold result, WeekGrid. intros I.
  apply week_cells_drawn in I as (day & _ & D).
  pose proof D as (E & _). by subst day.
Qed.

(** C6.  A cell of the month grid is a day between the first and the last
    of the current month; a cell of the year grid is a day between January
    1st and December 31st of the current year. *)
Theorem C6_cells_within_period (fuel t : nat) :
  validDate (clk (S t)) -> 100 <= getFullYear (clk (S t)) ->
  (yearFuel <= fuel)%nat ->
  let now := clk (S t) in
  (forall c, c ∈ monthCells (result (MonthGrid clk visits days) t) ->
     exists day,
       1 <= day <= DaysInMonth (getFullYear now) (getMonth now) /\
       date c = formatDate (mkDate (getFullYear now) (getMonth now) day 0)) /\
  exists v,
    result (YearGrid clk fuel visits days) t = Some v /\
    forall c, c ∈ yearCells v ->
      exists d,
        validDate d /\ getFullYear d = getFullYear now /\
        Day (mkDate (getFullYear now) 0 1 0) <= Day d
          <= Day (mkDate (getFullYear now) 11 31 0) /\
        date c = formatDate d.
Proof.
  intros (Hm & _ & _) Hy F now. split.
  - intros c I. apply monthCells_drawn in I as (w & Hw & Hc & _).
    rewrite monthGridData_run in Hw by done. cbn [snd] in Hw.
    pose proof (groupWeeks_from_days _ _ _ Hw Hc) as Hd.
    apply list_elem_of_In, in_map_iff in Hd as (d & E & Hd).
    apply list_elem_of_In, monthDates_elem in Hd as (day & R & ->).
    exists day. by split.
  - pose proof (yearGridData_run clk fuel t Hy F) as D.
    eexists. split; [by apply YearGrid_run | ].
    intros c I. unfold yearCells in I.
    change (yearRows (mkYearView ?a ?b ?r)) with r in I.
    change (allWeeks (mkYearData ?a ?w ?l)) with w in I.
    apply list_elem_of_omap in I as (x & I & E). simpl in E. subst x.
    apply rows_cells_drawn in I as (w & Hw & Hc & _).
    pose proof (groupWeeks_from_days _ _ _ Hw Hc) as Hd.
    apply list_elem_of_In, in_map_iff in Hd as (d & E & Hd).
    apply list_elem_of_In, yearDates_elem in Hd as (V & Y & _ & B).
    exists d. split; [exact V | ]. split; [exact Y | ].
    split; [exact B | by symmetry].
Qed.

End Cells.

(** C6 in March 2024: the cell of 2024-03-12 is a day of the month. *)
Lemma C6_cells_within_period_witness :
  exists day,
    1 <= day <= DaysInMonth 2024 2 /\
    "2024-03-12"%string = formatDate (mkDate 2024 2 day 0).
Proof.
  assert (V : validDate (mkDate 2024 2 10 0)) by concrete_date.
  assert (Hy : 100 <= getFullYear (mkDate 2024 2 10 0))
    by (vm_compute; intro; discriminate).
  assert (F : (yearFuel <= 400)%nat) by (unfold yearFuel; lia).
  destruct (C6_cells_within_period (fun _ => mkDate 2024 2 10 0)
              ["2024-03-12"%string] [] 400 0 V Hy F) as [H _].
  apply (H (mkDayCell "2024-03-12" true true)).
  apply (list_elem_of_lookup_2 _ 11%nat). vm_compute. reflexivity.
Defined.

Section FutureCells.

Variable clk : nat -> Date.
Variable today : Date.
Variable visits days : list string.

Lemma drawn_future (day : option string) (c : DayCell) (d : Date) :
  steady clk today -> wellFormed today -> wellFormed d ->
  drawnFrom clk visits day (Some c) ->
  date c = formatDate d -> Day today < Day d ->
  isFuture c = true /\ cellStyle c = FutureStyle /\
  cellTitle c = (date c +:+ " (future)")%string /\
  isVisited c = hasVisit visits (date c).
Proof.
  intros Hs Wt Wd (_ & Hv & k & Hf) E L.
  assert (Fu : isFuture c = true).
  { rewrite Hf, E, (formatDate_sameDay (clk k) today (Hs k)).
    by apply stringGt_formatDate_Day. }
  split; [done | ]. unfold cellStyle, cellTitle. by rewrite Fu.
Qed.

(** C1, as the code has it.  On a day when every reading of the clock is
    [today], a cell of the week, month or year grid whose date is after
    [today] has [isFuture] set and is drawn as a future day, in style and
    in title, whatever the visits; its [isVisited] flag is the membership
    of its date in the visits. *)
Theorem C1_future_cells (tz : Z) (fuel t : nat) :
  steady clk today -> clockDate today -> (yearFuel <= fuel)%nat ->
  (exists v, result (YearGrid clk fuel visits days) t = Some v) /\
  forall (c : DayCell) (d : Date),
    wellFormed d -> date c = formatDate d -> Day today < Day d ->
    (c ∈ weekCells (result (WeekGrid clk tz visits days) t) \/
     c ∈ monthCells (result (MonthGrid clk visits days) t) \/
     exists v, result (YearGrid clk fuel visits days) t = Some v /\
               c ∈ yearCells v) ->
    isFuture c = true /\ cellStyle c = FutureStyle /\
    cellTitle c = (date c +:+ " (future)")%string /\
    isVisited c = hasVisit visits (date c).
Proof.
  intros Hs [Wt Hy] F. split.
  - eexists. apply YearGrid_run. apply yearGridData_run; [ | done].
    by destruct (Hs (S t)) as (-> & _).
  - intros c d Wd E L [I | [I | (v & R & I)]].
    + apply weekCells_drawn in I. by eapply drawn_future.
    + apply monthCells_drawn in I as (w & _ & _ & D). by eapply drawn_future.
    + destruct (yearCells_drawn clk visits days fuel t v c R I)
        as (data & w & _ & _ & _ & D).
      by eapply drawn_future.
Qed.

End FutureCells.

(** C1 on 2024-03-10 with a visit on 2024-03-12: the month cell of that
    day. *)
Lemma C1_future_cells_witness :
  isFuture (mkDayCell "2024-03-12" true true) = true /\
  cellStyle (mkDayCell "2024-03-12" true true) = FutureStyle /\
  cellTitle (mkDayCell "2024-03-12" true true) = "2024-03-12 (future)"%string /\
  isVisited (mkDayCell "2024-03-12" true true)
    = hasVisit ["2024-03-12"%string] "2024-03-12".
Proof.
  assert (Hs : steady (fun _ => mkDate 2024 2 10 0) (mkDate 2024 2 10 0))
    by (intros k; repeat split).
  assert (Wt : clockDate (mkDate 2024 2 10 0)) by concrete_date.
  assert (Wd : wellFormed (mkDate 2024 2 12 0)) by concrete_date.
  assert (F : (yearFuel <= 400)%nat) by (unfold yearFuel; lia).
  destruct (C1_future_cells (fun _ => mkDate 2024 2 10 0) (mkDate 2024 2 10 0)
              ["2024-03-12"%string] [] 0 400 0 Hs Wt F) as [_ H].
  apply (H (mkDayCell "2024-03-12" true true) (mkDate 2024 2 12 0) Wd).
  - reflexivity.
  - vm_compute. reflexivity.
  - right. left. apply (list_elem_of_lookup_2 _ 11%nat). vm_compute.
    reflexivity.
Defined.

(** C1, as the spec has it, fails: with today 2024-03-10 and a visit
    recorded for 2024-03-12, the month grid's cell of 2024-03-12 is after
    today, is marked future, and has [isVisited] set. *)
Lemma C1_future_day_marked_visited :
  exists c,
    c ∈ monthCells (result (MonthGrid (fun _ => mkDate 2024 2 10 0)
                              ["2024-03-12"%string] []) 0) /\
    date c = formatDate (mkDate 2024 2 12 0) /\
    Day (mkDate 2024 2 10 0) < Day (mkDate 2024 2 12 0) /\
    isFuture c = true /\ isVisited c = true.
Proof.
  exists (mkDayCell "2024-03-12" true true).
  split; [ | by vm_compute].
  apply (list_elem_of_lookup_2 _ 11%nat). vm_compute. reflexivity.
Qed.

(** C10.  The month and the year grid do not depend on the list of period
    days they are handed. *)
Theorem C10_days_argument_ignored (clk : nat -> Date) (fuel : nat)
    (visits days1 days2 : list string) :
  MonthGrid clk visits days1 = MonthGrid clk visits days2 /\
  YearGrid clk fuel visits days1 = YearGrid clk fuel visits days2.
Proof. split; reflexivity. Qed.

(** The component hands the days of the period to the grid of that
    period, which starts reading the clock where the helper stopped. *)
Lemma StreakGrid_run (getDaysInPeriod : TimePeriod -> Clock (list string))
    (clk : nat -> Date) (tz : Z) (fuel : nat) (visits : list string)
    (period : TimePeriod) (t : nat) :
  let days := (getDaysInPeriod period t).1 in
  let t' := (getDaysInPeriod period t).2 in
  result (StreakGrid getDaysInPeriod clk tz fuel visits period) t =
  match period with
  | PeriodWeek => WeekView (result (WeekGrid clk tz visits days) t')
  | PeriodMonth => MonthGridView (result (MonthGrid clk visits days) t')
  | PeriodYear => YearGridView (result (YearGrid clk fuel visits days) t')
  end.
Proof.
  unfold result, StreakGrid, mbind, clock_bind, fmap, clock_fmap.
  destruct (getDaysInPeriod period t) as [days t']. cbn [fst snd].
  destruct period.
  - by destruct (WeekGrid clk tz visits days t').
  - by destruct (MonthGrid clk visits days t').
  - by destruct (YearGrid clk fuel visits days t').
Qed.

(** ** One reference date *)

Section Steady.

Variables clk clk' : nat -> Date.
Variable today : Date.
Hypothesis Hclk : steady clk today.
Hypothesis Hclk' : steady clk' today.
Variable visits days : list string.

Lemma renderDay_steady (day : option string) (t t' : nat) :
  (renderDay clk visits day t).1 = (renderDay clk' visits day t').1.
Proof.
  destruct day as [s | ]; [ | done].
  destruct (truthy s) eqn:T.
  - rewrite !renderDay_real by done.
    by rewrite (formatDate_sameDay _ _ (Hclk t)), (formatDate_sameDay _ _ (Hclk' t')).
  - unfold renderDay. by rewrite T.
Qed.

Lemma getFullMonthDays_steady (t t' : nat) :
  (getFullMonthDays clk t).1 = (getFullMonthDays clk' t').1.
Proof.
  unfold getFullMonthDays, newDate, mbind, clock_bind, mret, clock_ret.
  cbn [fst].
  destruct (Hclk t) as (-> & -> & _), (Hclk' t') as (-> & -> & _). done.
Qed.

Lemma monthGridData_unfold (c : nat -> Date) (t : nat) :
  (monthGridData c t).1 =
  (nth (Z.to_nat (getMonth (c t))) FULL_MONTH_NAMES ""%string,
   groupWeeks (getFullMonthDays c (S t)).1).
Proof. reflexivity. Qed.

Lemma monthGridData_steady (t t' : nat) :
  (monthGridData clk t).1 = (monthGridData clk' t').1.
Proof.
  rewrite !monthGridData_unfold.
  rewrite (getFullMonthDays_steady (S t) (S t')).
  destruct (Hclk t) as (_ & -> & _), (Hclk' t') as (_ & -> & _). done.
Qed.

Lemma yearGridData_unfold (c : nat -> Date) (fuel t : nat) :
  (yearGridData c fuel t).1 =
  match yearLoop fuel (newDateYMD (getFullYear (c (S t))) 0 1)
                 (newDateYMD (getFullYear (c (S t))) 11 31) [] with
  | Some allYearDays =>
      Some (mkYearData (getFullYear (c t)) (groupWeeks allYearDays)
              (monthLabelsLoop (groupWeeks allYearDays) ""%string []))
  | None => None
  end.
Proof. reflexivity. Qed.

Lemma yearGridData_steady (fuel t t' : nat) :
  (yearGridData clk fuel t).1 = (yearGridData clk' fuel t').1.
Proof.
  rewrite !yearGridData_unfold.
  destruct (Hclk t) as (-> & _), (Hclk' t') as (-> & _).
  destruct (Hclk (S t)) as (-> & _).
  destruct (Hclk' (S t')) as (-> & _). done.
Qed.

Lemma YearGrid_run_None (c : nat -> Date) (fuel t : nat) :
  (yearGridData c fuel t).1 = None ->
  result (YearGrid c fuel visits days) t = None.
Proof.
  unfold result, YearGrid, mbind, clock_bind.
  destruct (yearGridData c fuel t) as [o t']. cbn [fst]. by intros ->.
Qed.

(** C8, as the code has it.  Every part of a grid reads the clock for
    itself; when all the readings of an invocation fall on one calendar
    day, the grid is the one that day determines, the same for every
    clock that shows that day. *)
Theorem C8_one_today_when_clock_steady (tz : Z) (fuel t t' : nat) :
  result (WeekGrid clk tz visits days) t
    = result (WeekGrid clk' tz visits days) t' /\
  result (MonthGrid clk visits days) t
    = result (MonthGrid clk' visits days) t' /\
  result (YearGrid clk fuel visits days) t
    = result (YearGrid clk' fuel visits days) t'.
Proof.
  split; [ | split].
  - unfold result, WeekGrid. apply mapM_clock_ext. apply renderDay_steady.
  - rewrite !MonthGrid_run, (monthGridData_steady t t'). f_equal.
    apply mapM_clock_ext. intros w t1 t2.
    apply mapM_clock_ext. apply renderDay_steady.
  - pose proof (yearGridData_steady fuel t t') as E.
    destruct ((yearGridData clk' fuel t').1) as [data | ] eqn:D.
    + rewrite (YearGrid_run clk visits days fuel t data E).
      rewrite (YearGrid_run clk' visits days fuel t' data D).
      do 2 f_equal. apply mapM_clock_ext. intros i t1 t2.
      apply mapM_clock_ext. intros w t3 t4. apply renderDay_steady.
    + by rewrite (YearGrid_run_None clk fuel t E),
           (YearGrid_run_None clk' fuel t' D).
Qed.

End Steady.

(** C8 on 2024-03-10: a clock that advances within the day gives the
    month grid of the day. *)
Lemma C8_one_today_when_clock_steady_witness :
  result (MonthGrid (fun k => mkDate 2024 2 10 (Z.of_nat k)) [] []) 0
  = result (MonthGrid (fun _ => mkDate 2024 2 10 0) [] []) 0.
Proof.
  assert (S1 : steady (fun k => mkDate 2024 2 10 (Z.of_nat k))
                      (mkDate 2024 2 10 0)) by (intros k; repeat split).
  assert (S2 : steady (fun _ => mkDate 2024 2 10 0) (mkDate 2024 2 10 0))
    by (intros k; repeat split).
  exact (proj1 (proj2 (C8_one_today_when_clock_steady _ _ _ S1 S2
                         [] [] 0 400 0 0))).
Defined.

(** C8, as the spec has it, fails.  Let midnight pass after the second
    reading of the clock: the month grid lists its days from the reading
    of 2024-03-10, yet its cell of 2024-03-11 is compared with a reading
    of 2024-03-11 and is not future, though it is after the day that
    listed it; the grid differs from the one of 2024-03-10 alone. *)
Lemma C8_midnight_between_readings :
  let clk := fun k : nat =>
    if (k <? 2)%nat then mkDate 2024 2 10 86399999 else mkDate 2024 2 11 1 in
  formatDate (clk 1%nat) = "2024-03-10"%string /\
  result (getFullMonthDays clk) 1 = map formatDate (monthDates (clk 1%nat)) /\
  (exists c,
     c ∈ monthCells (result (MonthGrid clk [] []) 0) /\
     date c = "2024-03-11"%string /\
     isFuture c = false /\
     stringGt (date c) (formatDate (clk 1%nat)) = true) /\
  result (MonthGrid clk [] []) 0
    <> result (MonthGrid (fun _ => clk 1%nat) [] []) 0.
Proof.
  intros clk. split; [reflexivity | ]. split; [by vm_compute | ]. split.
  - exists (mkDayCell "2024-03-11" false false).
    split; [ | by vm_compute].
    apply (list_elem_of_lookup_2 _ 10%nat). vm_compute. reflexivity.
  - intros E.
    assert (L : monthCells (result (MonthGrid clk [] []) 0) !! 10%nat
                = monthCells (result (MonthGrid (fun _ => clk 1%nat) [] []) 0)
                    !! 10%nat) by (by rewrite E).
    vm_compute in L. discriminate L.
Qed.

(** ** Month labels of the year grid *)

Section MonthLabels.

Implicit Types (weeks : list Week) (w : Week).

Lemma monthLabelsLoop_app weeks (lastMonth : string) (acc : list string) :
  monthLabelsLoop weeks lastMonth acc
  = acc ++ monthLabelsLoop weeks lastMonth [].
Proof.
  revert lastMonth acc. induction weeks as [ | w weeks IH]; intros last acc.
  - simpl. by rewrite app_nil_r.
  - cbn [monthLabelsLoop].
    destruct (findNonNull w) as [f | ]; [destruct (truthy f);
      [destruct (negb (String.eqb (substring 0 7 f) last)) | ] | ];
      rewrite IH, (IH _ ([] ++ _)), <- app_assoc; done.
Qed.

(** One label per column. *)
Lemma monthLabelsLoop_length weeks (lastMonth : string) :
  length (monthLabelsLoop weeks lastMonth []) = length weeks.
Proof.
  revert lastMonth. induction weeks as [ | w weeks IH]; intros last.
  - done.
  - cbn [monthLabelsLoop].
    destruct (findNonNull w) as [f | ]; [destruct (truthy f);
      [destruct (negb (String.eqb (substring 0 7 f) last)) | ] | ];
      rewrite monthLabelsLoop_app, length_app, IH; done.
Qed.

(** The label of a column that holds a day: the month name when the key
    of its first day differs from the key seen last. *)
Lemma monthLabelsLoop_lookup weeks :
  Forall (fun w => exists f, findNonNull w = Some f /\ truthy f = true) weeks ->
  forall (lastMonth : string) (i : nat) w,
    weeks !! i = Some w ->
    monthLabelsLoop weeks lastMonth [] !! i =
    Some (if match i with
             | O => negb (String.eqb (monthKeyOf w) lastMonth)
             | S j =>
                 match weeks !! j with
                 | Some prev =>
                     negb (String.eqb (monthKeyOf w) (monthKeyOf prev))
                 | None => false
                 end
             end
          then getMonthName (monthKeyOf w) else ""%string).
Proof.
  induction 1 as [ | w0 weeks (f & Hf & T) _ IH]; intros last i w Hi.
  - done.
  - cbn [monthLabelsLoop]. rewrite Hf, T.
    assert (K : monthKeyOf w0 = substring 0 7 f)
      by (unfold monthKeyOf; by rewrite Hf).
    assert (E : monthLabelsLoop (w0 :: weeks) last [] =
                (if negb (String.eqb (substring 0 7 f) last)
                 then getMonthName (substring 0 7 f) else ""%string)
                :: monthLabelsLoop weeks (substring 0 7 f) []).
    { cbn [monthLabelsLoop]. rewrite Hf, T.
      destruct (String.eqb_spec (substring 0 7 f) last) as [<- | N]; simpl;
        by rewrite monthLabelsLoop_app. }
    cbn [monthLabelsLoop] in E. rewrite Hf, T in E. rewrite E.
    destruct i as [ | i].
    + injection Hi as <-. simpl. by rewrite K.
    + simpl in Hi. simpl lookup at 1.
      rewrite (IH (substring 0 7 f) i w Hi). f_equal.
      destruct i as [ | i]; simpl; by rewrite ?K.
Qed.

Lemma findNonNull_real w :
  (exists d, Some d ∈ w) -> exists f, findNonNull w = Some f /\ Some f ∈ w.
Proof.
  induction w as [ | [x | ] w IH]; intros [d I].
  - by apply elem_of_nil in I.
  - exists x. split; [done | left].
  - apply elem_of_cons in I as [? | I]; [done | ].
    destruct IH as (f & F1 & F2); [by exists d | ].
    exists f. split; [done | by right].
Qed.

Lemma getMonthName_key (d : Date) :
  validDate d ->
  getMonthName (substring 0 7 (formatDate d))
  = nth (Z.to_nat (getMonth d)) FULL_MONTH_NAMES ""%string /\
  getMonthName (substring 0 7 (formatDate d)) <> ""%string.
Proof.
  intros (Hm & _ & _). unfold getMonthName.
  change (substring 5 2 (substring 0 7 (formatDate d)))
    with (pad2 (getMonth d + 1)).
  rewrite numberOf_pad2 by lia.
  destruct (Z.leb_spec 1 (getMonth d + 1)); [ | lia].
  destruct (Z.leb_spec (getMonth d + 1) 12); [ | lia]. cbn [andb].
  replace (getMonth d + 1 - 1) with (getMonth d) by lia.
  assert (E : getMonth d = 0 \/ getMonth d = 1 \/ getMonth d = 2 \/
              getMonth d = 3 \/ getMonth d = 4 \/ getMonth d = 5 \/
              getMonth d = 6 \/ getMonth d = 7 \/ getMonth d = 8 \/
              getMonth d = 9 \/ getMonth d = 10 \/ getMonth d = 11) by lia.
  repeat (destruct E as [E | E]; [rewrite E; by split | ]).
  rewrite E. by split.
Qed.

Lemma monthKeyOf_formatDate_nonempty (d : Date) :
  String.eqb (substring 0 7 (formatDate d)) "" = false.
Proof. reflexivity. Qed.

(** C2, as the code has it.  The year grid has one label per week column;
    the label is the month name of the column's first day when that day is
    in another month than the first day of the column before (and in the
    first column), and is empty otherwise. *)
Theorem C2_month_labels (clk : nat -> Date) (fuel t : nat) :
  100 <= getFullYear (clk (S t)) <= 9999 -> (yearFuel <= fuel)%nat ->
  exists data,
    result (yearGridData clk fuel) t = Some data /\
    length (monthLabels data) = length (allWeeks data) /\
    forall i w, allWeeks data !! i = Some w ->
      monthLabels data !! i =
        Some (if beginsMonth (allWeeks data) i
              then getMonthName (monthKeyOf w) else ""%string) /\
      getMonthName (monthKeyOf w) <> ""%string.
Proof.
  intros Hy F. unfold result. rewrite yearGridData_run by (done || lia).
  eexists. split; [done | ]. cbn [monthLabels allWeeks].
  set (allYearDays := map formatDate (yearDates (clk (S t)))).
  assert (C : weekdayChain allYearDays) by (apply yearDays_chain; lia).
  assert (R : forall w, w ∈ groupWeeks allYearDays ->
                exists f d, findNonNull w = Some f /\ f = formatDate d /\
                            validDate d).
  { intros w Hw.
    destruct (groupWeeks_columns allYearDays C) as (_ & _ & _ & P).
    destruct (P w Hw) as [_ Hd].
    destruct (findNonNull_real w Hd) as (f & F1 & F2).
    pose proof (groupWeeks_from_days _ _ _ Hw F2) as I.
    apply list_elem_of_In, in_map_iff in I as (d & E & I).
    apply list_elem_of_In, yearDates_elem in I as (V & _).
    by exists f, d. }
  split; [apply monthLabelsLoop_length | ].
  intros i w Hi.
  assert (Hw : w ∈ groupWeeks allYearDays) by by eapply list_elem_of_lookup_2.
  destruct (R w Hw) as (f & d & F1 & -> & V).
  assert (K : monthKeyOf w = substring 0 7 (formatDate d))
    by (unfold monthKeyOf; by rewrite F1).
  split; [ | rewrite K; by apply getMonthName_key].
  rewrite (monthLabelsLoop_lookup (groupWeeks allYearDays)) with (w := w);
    [ | | done].
  - f_equal. destruct i as [ | i]; simpl.
    + by rewrite K, monthKeyOf_formatDate_nonempty.
    + by rewrite Hi.
  - apply Forall_forall. intros w' Hw'.
    destruct (R w' Hw') as (f' & d' & F1' & -> & _).
    exists (formatDate d'). split; [done | apply truthy_formatDate].
Qed.

(** C2 in 2024: one label per column. *)
Lemma C2_month_labels_witness :
  exists data,
    result (yearGridData (fun _ => mkDate 2024 2 10 0) 400) 0 = Some data /\
    length (monthLabels data) = length (allWeeks data).
Proof.
  assert (Hy : 100 <= getFullYear (mkDate 2024 2 10 0) <= 9999)
    by (vm_compute; split; intro; discriminate).
  assert (F : (yearFuel <= 400)%nat) by (unfold yearFuel; lia).
  destruct (C2_month_labels (fun _ => mkDate 2024 2 10 0) 400 0 Hy F)
    as (data & H1 & H2 & _).
  exists data. by split.
Defined.

(** C2, as the spec has it, fails.  In the year grid of 2024 the fifth
    column (29 January to 4 February) is the first in which a day of
    February appears, and its label is empty; the label "February" stands
    over the next column, which brings no new month. *)
Lemma C2_label_after_first_appearance :
  exists data,
    result (yearGridData (fun _ => mkDate 2024 2 10 0) 400) 0 = Some data /\
    introducesMonth (allWeeks data) 4 = true /\
    monthLabels data !! 4%nat = Some ""%string /\
    introducesMonth (allWeeks data) 5 = false /\
    monthLabels data !! 5%nat = Some "February"%string.
Proof. eexists. split; [vm_compute; reflexivity | ]. by vm_compute. Qed.

End MonthLabels.

(** * Further properties *)

(** ** The grouping loop on any list of days *)

Section GroupingAnyInput.

Implicit Types (days : list string) (ws : list Week) (cur w : Week).

(** A slot only ever receives a day of its own weekday. *)
Lemma groupLoop_rows days ws cur :
  (forall w r d, w ∈ ws -> w !! r = Some (Some d) ->
     Z.to_nat (getDayOfWeek d) = r) ->
  (forall r d, cur !! r = Some (Some d) -> Z.to_nat (getDayOfWeek d) = r) ->
  forall w r d,
    w ∈ (groupLoop days ws cur).1 ++ [(groupLoop days ws cur).2] ->
    w !! r = Some (Some d) -> Z.to_nat (getDayOfWeek d) = r.
Proof.
  revert ws cur. induction days as [ | a days IH]; intros ws cur Hws Hcur w r d.
  - simpl. rewrite elem_of_app, list_elem_of_singleton.
    intros [I | ->]; [by apply Hws | by apply Hcur].
  - assert (Hcur1 : forall r d,
              <[Z.to_nat (getDayOfWeek a) := Some a]> cur !! r = Some (Some d) ->
              Z.to_nat (getDayOfWeek d) = r).
    { intros r0 d0 H.
      apply list_lookup_insert_Some in H as [(E1 & E2 & _) | (_ & H)].
      - injection E2 as <-. done.
      - by apply Hcur. }
    rewrite groupLoop_cons. destruct (getDayOfWeek a =? 6).
    + apply IH.
      * intros w0 r0 d0. rewrite elem_of_app, list_elem_of_singleton.
        intros [I | ->]; [by apply Hws | by apply Hcur1].
      * intros r0 d0 H. apply emptyWeek_lookup in H. done.
    + by apply IH.
Qed.

(** The loop makes at most one column per day. *)
Lemma groupLoop_count_le days ws cur :
  (length (groupLoop days ws cur).1
   + (if existsb isNonNull (groupLoop days ws cur).2 then 1 else 0)
   <= length ws + (if existsb isNonNull cur then 1 else 0) + length days)%nat.
Proof.
  revert ws cur. induction days as [ | a days IH]; intros ws cur.
  - simpl. lia.
  - rewrite groupLoop_cons. destruct (getDayOfWeek a =? 6).
    + etransitivity; [apply IH | ]. rewrite length_app. simpl.
      destruct (existsb isNonNull cur); lia.
    + etransitivity; [apply IH | ]. simpl.
      destruct (existsb isNonNull _), (existsb isNonNull cur); lia.
Qed.

Lemma groupWeeks_real_columns days w :
  w ∈ groupWeeks days -> length w = 7%nat /\ exists d, Some d ∈ w.
Proof.
  intros H.
  destruct (groupLoop_closed_real days [] emptyWeek eq_refl (Forall_nil_2 _))
    as [F L].
  rewrite groupWeeks_unfold in H.
  destruct (existsb isNonNull (groupLoop days [] emptyWeek).2) eqn:E.
  - apply elem_of_app in H as [H | H].
    + by apply (proj1 (Forall_forall _ _) F w).
    + apply list_elem_of_singleton in H. subst w.
      split; [done | by apply isNonNull_exists].
  - by apply (proj1 (Forall_forall _ _) F w).
Qed.

Lemma groupWeeks_in_loop days w :
  w ∈ groupWeeks days ->
  w ∈ (groupLoop days [] emptyWeek).1 ++ [(groupLoop days [] emptyWeek).2].
Proof.
  rewrite groupWeeks_unfold.
  destruct (existsb isNonNull (groupLoop days [] emptyWeek).2); [done | ].
  intros H. apply elem_of_app. by left.
Qed.

(** X1.  Whatever well-formed dates it is given, in any order and with
    repeats, the grouping loop of the month and year grids yields no
    column for no day, at most one column per day, and only columns of
    seven slots that hold at least one day; a day in slot [r] is a day of
    the list whose weekday, counted from Monday, is [r]. *)
Theorem X1_grouping_any_dates (ds : list Date) :
  Forall wellFormed ds ->
  groupWeeks [] = [] /\
  (length (groupWeeks (map formatDate ds)) <= length ds)%nat /\
  forall w, w ∈ groupWeeks (map formatDate ds) ->
    length w = 7%nat /\ (exists d, Some d ∈ w) /\
    forall (r : nat) (d : string), w !! r = Some (Some d) ->
      exists x, x ∈ ds /\ d = formatDate x /\ (Day x + 3) mod 7 = Z.of_nat r.
Proof.
  intros WF. split; [reflexivity | ]. split.
  - pose proof (groupLoop_count_le (map formatDate ds) [] emptyWeek) as L.
    rewrite groupWeeks_unfold. rewrite length_map in L.
    destruct (existsb isNonNull (groupLoop (map formatDate ds) [] emptyWeek).2);
      [rewrite length_app | ]; simpl in *; lia.
  - intros w Hw.
    destruct (groupWeeks_real_columns (map formatDate ds) w Hw) as [L R].
    split; [done | ]. split; [done | ]. intros r d Hr.
    assert (I : d ∈ map formatDate ds).
    { apply (groupWeeks_from_days _ w d Hw). by eapply list_elem_of_lookup_2. }
    apply list_elem_of_In, in_map_iff in I as (x & <- & I).
    apply list_elem_of_In in I. exists x. split; [done | ]. split; [done | ].
    assert (E : Z.to_nat (getDayOfWeek (formatDate x)) = r).
    { apply (groupLoop_rows (map formatDate ds) [] emptyWeek) with w.
      - intros w0 r0 d0 I0. by apply elem_of_nil in I0.
      - intros r0 d0 H. apply emptyWeek_lookup in H. done.
      - by apply groupWeeks_in_loop.
      - done. }
    rewrite getDayOfWeek_formatDate in E
      by (by apply (proj1 (Forall_forall _ _) WF)).
    pose proof (Z.mod_pos_bound (Day x + 3) 7 eq_refl). lia.
Qed.

(** X1 on three days of March 2024, the second written twice. *)
Lemma X1_grouping_any_dates_witness :
  exists x,
    x ∈ [mkDate 2024 2 1 0; mkDate 2024 2 2 0; mkDate 2024 2 2 0] /\
    "2024-03-02"%string = formatDate x /\ (Day x + 3) mod 7 = 5.
Proof.
  assert (WF : Forall wellFormed
                 [mkDate 2024 2 1 0; mkDate 2024 2 2 0; mkDate 2024 2 2 0]).
  { repeat constructor; concrete_date. }
  destruct (X1_grouping_any_dates _ WF) as (_ & _ & P).
  destruct (P [None; None; None; None; Some "2024-03-01"; Some "2024-03-02";
               None]%string) as (_ & _ & Q).
  - vm_compute. left.
  - exact (Q 5%nat "2024-03-02"%string eq_refl).
Defined.

End GroupingAnyInput.

(** ** Where each day sits, and how many columns there are *)

Section Placement.

Implicit Types (days : list string) (ws : list Week) (cur w : Week).

(** In a list of consecutive days that starts on weekday [w0], the
    Sundays before day [i] are the full weeks before it. *)
Lemma sundaysBefore_weeks days (w0 : Z) :
  0 <= w0 <= 6 ->
  (forall i d, days !! i = Some d ->
     getDayOfWeek d = (w0 + Z.of_nat i) mod 7) ->
  forall i : nat, (i <= length days)%nat ->
    Z.of_nat (sundaysBefore i days) = (w0 + Z.of_nat i) / 7.
Proof.
  intros R A i. induction i as [ | i IH]; intros L.
  - rewrite sundaysBefore_0. rewrite Z.add_0_r, Z.div_small; lia.
  - destruct (lookup_lt_is_Some_2 days i ltac:(lia)) as [d Hd].
    unfold sundaysBefore in *. rewrite (take_S_r _ _ _ Hd), filter_app.
    rewrite length_app, Nat2Z.inj_add, IH by lia.
    rewrite filter_cons, filter_nil. pose proof (A i d Hd) as E.
    case_decide as C; simpl; Z.div_mod_to_equations; lia.
Qed.

(** A chain is what days aligned on a first weekday form. *)
Lemma aligned_chain days (w0 : Z) :
  (forall i d, days !! i = Some d ->
     getDayOfWeek d = (w0 + Z.of_nat i) mod 7) ->
  weekdayChain days.
Proof.
  revert w0. induction days as [ | a days IH]; intros w0 A; [done | ].
  cbn [weekdayChain]. split.
  - destruct days as [ | b days]; [done | ].
    rewrite (A 0%nat a eq_refl), (A 1%nat b eq_refl).
    rewrite Zplus_mod_idemp_l. f_equal. lia.
  - apply (IH (w0 + 1)). intros i d Hd. rewrite (A (S i) d Hd).
    f_equal. lia.
Qed.

(** Day [i] of such a list sits in column [(w0 + i) / 7], row
    [(w0 + i) mod 7]. *)
Lemma groupWeeks_position days (w0 : Z) (i : nat) (d : string) :
  0 <= w0 <= 6 ->
  (forall i d, days !! i = Some d ->
     getDayOfWeek d = (w0 + Z.of_nat i) mod 7) ->
  days !! i = Some d ->
  exists w,
    groupWeeks days !! Z.to_nat ((w0 + Z.of_nat i) / 7) = Some w /\
    w !! Z.to_nat ((w0 + Z.of_nat i) mod 7) = Some (Some d).
Proof.
  intros R A Hd.
  destruct (groupWeeks_columns days (aligned_chain days w0 A)) as (P & _).
  destruct (P i d Hd) as (w & W1 & W2). exists w.
  pose proof (lookup_lt_Some _ _ _ Hd) as L.
  rewrite <- (sundaysBefore_weeks days w0 R A i) by lia.
  rewrite Nat2Z.id, <- (A i d Hd). done.
Qed.

(** The column left open by the loop holds a day exactly when the last
    day is not a Sunday. *)
Lemma groupLoop_trailing days ws cur (d : string) :
  length cur = 7%nat -> last days = Some d ->
  existsb isNonNull (groupLoop days ws cur).2 = negb (getDayOfWeek d =? 6).
Proof.
  revert ws cur. induction days as [ | a days IH]; intros ws cur L H; [done | ].
  pose proof (getDayOfWeek_range a) as Ra.
  rewrite groupLoop_cons. destruct days as [ | b days].
  - injection H as <-. destruct (Z.eqb_spec (getDayOfWeek a) 6); [done | ].
    cbn [groupLoop snd negb]. apply isNonNull_exists. exists a.
    eapply list_elem_of_lookup_2. apply list_lookup_insert_eq. lia.
  - change (last (a :: b :: days)) with (last (b :: days)) in H.
    destruct (getDayOfWeek a =? 6);
      apply IH; try done. by rewrite length_insert.
Qed.

(** The number of columns of such a list: the weeks it touches. *)
Lemma groupWeeks_count days (w0 : Z) :
  0 <= w0 <= 6 -> days <> [] ->
  (forall i d, days !! i = Some d ->
     getDayOfWeek d = (w0 + Z.of_nat i) mod 7) ->
  Z.of_nat (length (groupWeeks days))
  = (w0 + Z.of_nat (length days) + 6) / 7.
Proof.
  intros R N A.
  destruct (last days) as [d | ] eqn:Hl;
    [ | by apply last_None in Hl].
  pose proof (groupLoop_trailing days [] emptyWeek d eq_refl Hl) as T.
  pose proof (groupLoop_closed_count days [] emptyWeek) as C.
  pose proof (sundaysBefore_weeks days w0 R A (length days) (le_n _)) as S.
  assert (Hd : days !! Nat.pred (length days) = Some d)
    by (by rewrite <- last_lookup).
  pose proof (A _ d Hd) as E.
  assert (0 < length days)%nat by (destruct days; [done | simpl; lia]).
  rewrite groupWeeks_unfold, T.
  destruct (Z.eqb_spec (getDayOfWeek d) 6) as [E6 | N6]; cbn [negb];
    [ | rewrite length_app; cbn [length] ];
    simpl in C; Z.div_mod_to_equations; lia.
Qed.


Lemma yearDates_lookup (now d : Date) (i : nat) :
  yearDates now !! i = Some d ->
  d = addDays (mkDate (getFullYear now) 0 1 0) (Z.of_nat i) /\
  Z.of_nat i < (if InLeapYear (getFullYear now) then 366 else 365).
Proof.
  unfold yearDates. change (map ?f ?l) with (f <$> l).
  rewrite list_lookup_fmap. intros H.
  destruct (seqZ _ _ !! i) as [k | ] eqn:K; [ | done].
  apply lookup_seqZ in K as [-> K]. simpl in H. by injection H as <-.
Qed.

Lemma year_days_aligned (now : Date) (i : nat) (d : string) :
  0 <= getFullYear now <= 9999 ->
  map formatDate (yearDates now) !! i = Some d ->
  getDayOfWeek d = (januaryWeekday now + Z.of_nat i) mod 7.
Proof.
  intros Hy. change (map ?f ?l) with (f <$> l).
  rewrite list_lookup_fmap. intros H.
  destruct (yearDates now !! i) as [x | ] eqn:X; [ | done].
  pose proof (list_elem_of_lookup_2 _ _ _ X) as I.
  apply yearDates_elem in I as (V & Y & _).
  apply yearDates_lookup in X as [E B]. simpl in H. injection H as <-.
  assert (V0 : validDate (mkDate (getFullYear now) 0 1 0))
    by (apply validDate_midnight; cbn; lia).
  destruct (addDays_spec _ (Z.of_nat i) V0) as (_ & A2 & _).
  unfold januaryWeekday.
  rewrite !getDayOfWeek_formatDate by (split; [done | cbn; lia]).
  rewrite Zplus_mod_idemp_l, E, A2. f_equal. lia.
Qed.


Lemma yearDates_nth (now : Date) (k : Z) :
  0 <= k < (if InLeapYear (getFullYear now) then 366 else 365) ->
  map formatDate (yearDates now) !! Z.to_nat k
  = Some (formatDate (addDays (mkDate (getFullYear now) 0 1 0) k)).
Proof.
  intros B. change (map ?f ?l) with (f <$> l). unfold yearDates.
  change (map ?f ?l) with (f <$> l).
  rewrite !list_lookup_fmap, lookup_seqZ_lt by lia. simpl.
  do 3 f_equal. lia.
Qed.


Lemma januaryWeekday_range (now : Date) : 0 <= januaryWeekday now <= 6.
Proof. apply getDayOfWeek_range. Qed.





End Placement.

(** ** The days of the year grid *)

Section YearDays.

Lemma validDate_jan1 (y : Z) : validDate (mkDate y 0 1 0).
Proof. apply validDate_midnight; cbn; lia. Qed.

Lemma yearDates_length (now : Date) :
  length (yearDates now) =
  Z.to_nat (if InLeapYear (getFullYear now) then 366 else 365).
Proof. unfold yearDates. by rewrite length_map, length_seqZ. Qed.

Lemma yearDates_lookup_lt (now : Date) (i : nat) :
  Z.of_nat i < (if InLeapYear (getFullYear now) then 366 else 365) ->
  yearDates now !! i
  = Some (addDays (mkDate (getFullYear now) 0 1 0) (Z.of_nat i)).
Proof.
  intros B. unfold yearDates. change (map ?f ?l) with (f <$> l).
  by rewrite list_lookup_fmap, lookup_seqZ_lt by lia.
Qed.





End YearDays.

(** ** Which cells are future, exactly *)

Section FutureExactly.

Variable clk : nat -> Date.
Variable today : Date.
Variable visits days : list string.

Lemma drawn_marks (day : option string) (c : DayCell) (d : Date) :
  steady clk today -> wellFormed today -> wellFormed d ->
  drawnFrom clk visits day (Some c) ->
  date c = formatDate d ->
  isFuture c = (Day today <? Day d) /\
  isVisited c = hasVisit visits (date c).
Proof.
  intros Hs Wt Wd (_ & Hv & k & Hf) E. split; [ | done].
  rewrite Hf, E, (formatDate_sameDay (clk k) today (Hs k)).
  pose proof (stringGt_formatDate_Day d today Wd Wt) as G.
  destruct (Z.ltb_spec (Day today) (Day d)) as [L | L].
  - by apply G.
  - destruct (stringGt (formatDate d) (formatDate today)); [ | done].
    assert (Day today < Day d) by (by apply G). lia.
Qed.

(** X5.  On a day when every reading of the clock is [today], a cell of
    the week, month or year grid is marked future exactly when its date is
    after [today]; today's cell and earlier ones are not future, and are
    drawn as visited exactly when their date is among the visits. *)
Theorem X5_future_exactly (tz : Z) (fuel t : nat) :
  steady clk today -> wellFormed today ->
  forall (c : DayCell) (d : Date),
    wellFormed d -> date c = formatDate d ->
    (c ∈ weekCells (result (WeekGrid clk tz visits days) t) \/
     c ∈ monthCells (result (MonthGrid clk visits days) t) \/
     exists v, result (YearGrid clk fuel visits days) t = Some v /\
               c ∈ yearCells v) ->
    (isFuture c = true <-> Day today < Day d) /\
    (Day d <= Day today ->
       cellStyle c = (if hasVisit visits (date c)
                      then VisitedStyle else UnvisitedStyle) /\
       cellTitle c = (date c +:+ (if hasVisit visits (date c)
                                  then " ✓" else ""))%string).
Proof.
  intros Hs Wt c d Wd E I.
  assert (D : exists day, drawnFrom clk visits day (Some c)).
  { destruct I as [I | [I | (v & R & I)]].
    - eexists. by eapply weekCells_drawn.
    - apply monthCells_drawn in I as (w & _ & _ & D). by eexists.
    - destruct (yearCells_drawn clk visits days fuel t v c R I)
        as (data & w & _ & _ & _ & D). by eexists. }
  destruct D as [day D].
  destruct (drawn_marks day c d Hs Wt Wd D E) as [Fu Vi].
  split.
  - rewrite Fu. apply Z.ltb_lt.
  - intros L. unfold cellStyle, cellTitle. rewrite Fu, Vi.
    destruct (Z.ltb_spec (Day today) (Day d)); [lia | done].
Qed.

End FutureExactly.

(** X5 on 2024-03-10 with a visit that day: today's cell is not future
    and is drawn as visited. *)
Lemma X5_future_exactly_witness :
  cellStyle (mkDayCell "2024-03-10" true false) = VisitedStyle.
Proof.
  assert (Hs : steady (fun _ => mkDate 2024 2 10 0) (mkDate 2024 2 10 0))
    by (intros k; repeat split).
  assert (Wt : wellFormed (mkDate 2024 2 10 0)) by concrete_date.
  destruct (X5_future_exactly (fun _ => mkDate 2024 2 10 0)
              (mkDate 2024 2 10 0) ["2024-03-10"%string] [] 0 400 0 Hs Wt
              (mkDayCell "2024-03-10" true false) (mkDate 2024 2 10 0) Wt)
    as [_ H].
  - reflexivity.
  - right. left. apply (list_elem_of_lookup_2 _ 9%nat). vm_compute.
    reflexivity.
  - apply H. vm_compute. intro; discriminate.
Defined.

(** ** What the visits can and cannot change *)

Section VisitsOnlyMark.

Context {A B C : Type}.

(** Two mapped runs that read the clock alike and agree through [h] slot
    by slot agree through [h] as a whole. *)
Lemma mapM_clock_alike (f g : A -> Clock B) (h : B -> C) (l : list A)
    (t : nat) :
  (forall x t, (f x t).2 = (g x t).2 /\ h (f x t).1 = h (g x t).1) ->
  (mapM f l t).2 = (mapM g l t).2 /\
  map h (mapM f l t).1 = map h (mapM g l t).1.
Proof.
  intros H. revert t. induction l as [ | x l IH]; intros t; [done | ].
  rewrite !mapM_clock_cons. cbn [fst snd map].
  destruct (H x t) as [E1 E2]. rewrite E1, E2.
  destruct (IH (g x t).2) as [I1 I2]. by rewrite I1, I2.
Qed.

End VisitsOnlyMark.

Section VisitsOnlyMarkGrids.

Variable clk : nat -> Date.

Lemma renderDay_visits (v1 v2 : list string) (day : option string) (t : nat) :
  (renderDay clk v1 day t).2 = (renderDay clk v2 day t).2 /\
  cellShape <$> (renderDay clk v1 day t).1
  = cellShape <$> (renderDay clk v2 day t).1.
Proof.
  destruct day as [s | ]; [ | done]. unfold renderDay.
  by destruct (truthy s).
Qed.

Lemma MonthGrid_ticks (visits days : list string) (t : nat) :
  monthTitle (result (MonthGrid clk visits days) t)
    = (monthGridData clk t).1.1 /\
  monthColumns (result (MonthGrid clk visits days) t)
    = (mapM (mapM (renderDay clk visits)) (monthGridData clk t).1.2
            (monthGridData clk t).2).1.
Proof. by rewrite MonthGrid_run. Qed.

(** X6.  The visits decide the visit mark of a cell and nothing else: for
    any two visit lists the three grids have the same titles and labels
    and, slot by slot, cells of the same date and the same future mark. *)
Theorem X6_visits_only_mark (tz : Z) (fuel t : nat)
    (v1 v2 days : list string) :
  map (fmap cellShape) (result (WeekGrid clk tz v1 days) t)
    = map (fmap cellShape) (result (WeekGrid clk tz v2 days) t) /\
  monthTitle (result (MonthGrid clk v1 days) t)
    = monthTitle (result (MonthGrid clk v2 days) t) /\
  map (map (fmap cellShape)) (monthColumns (result (MonthGrid clk v1 days) t))
    = map (map (fmap cellShape))
          (monthColumns (result (MonthGrid clk v2 days) t)) /\
  (fun v => (yearTitle v, yearLabels v,
             map (map (fmap cellShape)) (yearRows v)))
    <$> result (YearGrid clk fuel v1 days) t
  = (fun v => (yearTitle v, yearLabels v,
               map (map (fmap cellShape)) (yearRows v)))
      <$> result (YearGrid clk fuel v2 days) t.
Proof.
  split; [ | split; [ | split]].
  - unfold result, WeekGrid.
    apply (mapM_clock_alike (renderDay clk v1) (renderDay clk v2)
             (fmap cellShape)).
    intros x t0. apply renderDay_visits.
  - by rewrite !(proj1 (MonthGrid_ticks _ _ _)).
  - rewrite !(proj2 (MonthGrid_ticks _ _ _)).
    apply (mapM_clock_alike (mapM (renderDay clk v1)) (mapM (renderDay clk v2))
             (map (fmap cellShape))).
    intros w t0.
    apply (mapM_clock_alike (renderDay clk v1) (renderDay clk v2)
             (fmap cellShape)).
    intros x t1. apply renderDay_visits.
  - destruct ((yearGridData clk fuel t).1) as [data | ] eqn:D.
    + rewrite (YearGrid_run clk v1 days fuel t data D).
      rewrite (YearGrid_run clk v2 days fuel t data D).
      cbn [fmap option_fmap option_map yearTitle yearLabels yearRows].
      do 2 f_equal.
      apply (mapM_clock_alike
               (fun dayIndex =>
                  mapM (fun week : Week =>
                          renderDay clk v1 (mjoin (week !! dayIndex)))
                       (allWeeks data))
               (fun dayIndex =>
                  mapM (fun week : Week =>
                          renderDay clk v2 (mjoin (week !! dayIndex)))
                       (allWeeks data))
               (map (fmap cellShape))).
      intros i t0.
      apply (mapM_clock_alike
               (fun week : Week => renderDay clk v1 (mjoin (week !! i)))
               (fun week : Week => renderDay clk v2 (mjoin (week !! i)))
               (fmap cellShape)).
      intros w t1. apply renderDay_visits.
    + by rewrite (YearGrid_run_None v1 days clk fuel t D),
           (YearGrid_run_None v2 days clk fuel t D).
Qed.

End VisitsOnlyMarkGrids.

(** ** The markup follows the grid *)

Section Markup.

Context {A B C : Type}.

(** A mapped run seen through [h] is the list seen through [g], when each
    slot's run seen through [h] is the slot seen through [g]. *)
Lemma mapM_clock_map (f : A -> Clock B) (h : B -> C) (g : A -> C)
    (l : list A) (t : nat) :
  (forall x, x ∈ l -> forall t, h (f x t).1 = g x) ->
  map h (mapM f l t).1 = map g l.
Proof.
  revert t. induction l as [ | x l IH]; intros t H; [done | ].
  rewrite mapM_clock_cons. cbn [fst map]. f_equal.
  - apply H. left.
  - apply IH. intros y Hy. apply H. by right.
Qed.

Lemma mapM_clock_length (f : A -> Clock B) (l : list A) (t : nat) :
  length (mapM f l t).1 = length l.
Proof.
  revert t. induction l as [ | x l IH]; intros t; [done | ].
  rewrite mapM_clock_cons. cbn [fst length]. by rewrite IH.
Qed.

End Markup.

Section MarkupGrids.

Variable clk : nat -> Date.
Variable visits days : list string.

(** A slot that is null or holds a non-empty string is drawn as it is. *)
Lemma renderDay_date (day : option string) (t : nat) :
  (forall s, day = Some s -> truthy s = true) ->
  date <$> (renderDay clk visits day t).1 = day.
Proof.
  intros H. destruct day as [s | ]; [ | done].
  by rewrite renderDay_real by by apply H.
Qed.

Lemma formatted_truthy (ds : list Date) (s : string) :
  s ∈ map formatDate ds -> truthy s = true.
Proof.
  intros I. apply list_elem_of_In, in_map_iff in I as (d & <- & _).
  apply truthy_formatDate.
Qed.

Lemma columns_markup (ds : list Date) (t : nat) :
  map (map (fmap date))
      (mapM (mapM (renderDay clk visits)) (groupWeeks (map formatDate ds)) t).1
  = groupWeeks (map formatDate ds).
Proof.
  rewrite <- (map_id (groupWeeks (map formatDate ds))) at 2.
  apply mapM_clock_map. intros w Hw t0.
  rewrite <- (map_id w) at 2.
  apply mapM_clock_map. intros day Hd t1. apply renderDay_date.
  intros s ->. apply (formatted_truthy ds).
  by apply (groupWeeks_from_days _ w).
Qed.

Lemma rows_markup (ds : list Date) (idx : list nat) (t : nat) :
  map (map (fmap date))
      (mapM (fun dayIndex =>
               mapM (fun week : Week =>
                       renderDay clk visits (mjoin (week !! dayIndex)))
                    (groupWeeks (map formatDate ds)))
            idx t).1
  = map (fun dayIndex =>
           map (fun week : Week => mjoin (week !! dayIndex))
               (groupWeeks (map formatDate ds)))
        idx.
Proof.
  apply mapM_clock_map. intros i _ t0.
  apply mapM_clock_map. intros w Hw t1. apply renderDay_date.
  intros s E. apply (formatted_truthy ds).
  apply (groupWeeks_from_days _ w); [done | ].
  destruct (w !! i) as [slot | ] eqn:S; [ | done].
  simpl in E. subst slot. by eapply list_elem_of_lookup_2.
Qed.

(** X7.  The markup draws the grid as it is.  In the month view there is
    one column of seven slots per week column, with a cell at every day
    and a spacer at every null.  The year view has seven rows, one per
    day label, each with one slot per week column and per month label;
    the slot of row [r] under column [c] shows slot [r] of column [c]. *)
Theorem X7_markup_follows_grid (fuel t : nat) :
  clockDate (clk (S t)) -> (yearFuel <= fuel)%nat ->
  map (map (fmap date)) (monthColumns (result (MonthGrid clk visits days) t))
    = (result (monthGridData clk) t).2 /\
  Forall (fun column => length column = length DAY_LABELS)
         (monthColumns (result (MonthGrid clk visits days) t)) /\
  exists data v,
    result (yearGridData clk fuel) t = Some data /\
    result (YearGrid clk fuel visits days) t = Some v /\
    yearTitle v = currentYear data /\
    yearLabels v = monthLabels data /\
    length (yearRows v) = length DAY_LABELS /\
    Forall (fun row => length row = length (yearLabels v)) (yearRows v) /\
    map (map (fmap date)) (yearRows v)
    = map (fun r => map (fun week : Week => mjoin (week !! r)) (allWeeks data))
          (seq 0 7).
Proof.
  intros [W H100] F. pose proof W as [(Hm & _ & _) Hy].
  assert (M : map (map (fmap date))
                (monthColumns (result (MonthGrid clk visits days) t))
              = (result (monthGridData clk) t).2).
  { rewrite MonthGrid_run. unfold result.
    rewrite monthGridData_run by done. cbn [fst snd monthColumns].
    apply columns_markup. }
  split; [exact M | ]. split.
  - apply Forall_forall. intros col Hc.
    assert (I : map (fmap date) col ∈ (result (monthGridData clk) t).2).
    { rewrite <- M. apply list_elem_of_In, in_map. by apply list_elem_of_In. }
    unfold result in I. rewrite monthGridData_run in I by done.
    cbn [fst snd] in I.
    apply groupWeeks_real_columns in I as [L _].
    by rewrite length_map in L.
  - pose proof (yearGridData_run clk fuel t H100 F) as D.
    eexists _, _. split; [exact D | ].
    split; [by apply YearGrid_run | ].
    cbn [yearTitle yearLabels yearRows currentYear monthLabels allWeeks].
    split; [done | ]. split; [done | ].
    split; [by rewrite mapM_clock_length | ]. split.
    + apply Forall_forall. intros row Hr.
      apply list_elem_of_lookup in Hr as [i Hi].
      pose proof (mapM_clock_Forall2
        (fun dayIndex =>
           mapM (fun week : Week =>
                   renderDay clk visits (mjoin (week !! dayIndex)))
                (groupWeeks (map formatDate (yearDates (clk (S t))))))
        (fun (_ : nat) row =>
           length row
           = length (groupWeeks (map formatDate (yearDates (clk (S t))))))
        (seq 0 (length DAY_LABELS)) (yearGridData clk fuel t).2
        (fun i t0 => mapM_clock_length _ _ t0)) as FA.
      destruct (Forall2_lookup_r _ _ _ _ _ FA Hi) as (_ & _ & L).
      rewrite L. symmetry. apply monthLabelsLoop_length.
    + apply rows_markup.
Qed.

End MarkupGrids.

(** X7 in March 2024: five columns of seven slots. *)
Lemma X7_markup_follows_grid_witness :
  Forall (fun column => length column = 7%nat)
    (monthColumns (result (MonthGrid (fun _ => mkDate 2024 2 10 0) [] []) 0)).
Proof.
  assert (W : clockDate (mkDate 2024 2 10 0)) by concrete_date.
  assert (F : (yearFuel <= 400)%nat) by (unfold yearFuel; lia).
  exact (proj1 (proj2 (X7_markup_follows_grid (fun _ => mkDate 2024 2 10 0)
                         [] [] 400 0 W F))).
Defined.

(** ** The week view in any zone *)

Section WeekAnyZone.

(** Drawing a day reads the clock once. *)
Lemma renderDay_ticks (clk : nat -> Date) (visits : list string) (s : string)
    (t : nat) :
  truthy s = true -> (renderDay clk visits (Some s) t).2 = S t.
Proof. intros T. unfold renderDay. by rewrite T. Qed.

(** X8.  In a zone less than a day from Greenwich, the week row built from
    a well-formed first day is a run of seven consecutive calendar days
    from a Monday to a Sunday; the week is that of the first day at or
    east of Greenwich, and that of the day before it to the west. *)
Theorem X8_week_row_any_zone (tz : Z) (d : Date) (rest : list string) :
  -1440 < tz < 1440 -> wellFormed d ->
  exists monday,
    validDate monday /\ getDay monday = 1 /\
    Day monday <= Day d + (if tz <? 0 then -1 else 0) <= Day monday + 6 /\
    getFullWeekDays tz (formatDate d :: rest) =
      map (fun i => Some (formatDate (addDays monday i))) (seqZ 0 7) /\
    forall i, 0 <= i < 7 ->
      validDate (addDays monday i) /\
      Day (addDays monday i) = Day monday + i /\
      getDay (addDays monday i) = (1 + i) mod 7.
Proof.
  intros Htz W. pose proof W as [V Hy]. pose proof V as (Hm & Hd & Hs).
  unfold getFullWeekDays.
  set (shift := if tz <? 0 then -1 else 0).
  set (base := mkDate (getFullYear d) (getMonth d) (getDate d)
                      ((tz * msPerMinute) mod msPerDay)).
  assert (F : newDateString tz (formatDate d) = addDays base shift).
  { unfold newDateString, base, shift.
    rewrite civilOfString_formatDate by done.
    cbn [getFullYear getMonth getDate]. f_equal.
    unfold msPerMinute, msPerDay.
    destruct (Z.ltb_spec tz 0); Z.div_mod_to_equations; lia. }
  rewrite F.
  assert (Vb : validDate base).
  { unfold validDate, base. cbn [getFullYear getMonth getDate msInDay].
    pose proof (Z.mod_pos_bound (tz * msPerMinute) msPerDay eq_refl). lia. }
  assert (Db : Day base = Day d) by reflexivity.
  destruct (addDays_spec base shift Vb) as (A1 & A2 & A3).
  set (firstDay := addDays base shift) in *.
  set (off := if getDay firstDay =? 0 then -6 else 1 - getDay firstDay).
  rewrite setDate_shift by done.
  destruct (addDays_spec firstDay off A1) as (B1 & B2 & B3).
  assert (O : (Day firstDay + off + 4) mod 7 = 1 /\ -6 <= off <= 0).
  { unfold off, getDay.
    destruct (Z.eqb_spec ((Day firstDay + 4) mod 7) 0);
      Z.div_mod_to_equations; lia. }
  exists (addDays firstDay off).
  split; [done | ]. split; [unfold getDay; rewrite B2; apply O | ].
  split; [fold shift; lia | ]. split.
  - apply map_ext. intros i. by rewrite setDate_shift.
  - intros i Hi.
    destruct (addDays_spec (addDays firstDay off) i B1) as (C1 & C2 & C3).
    split; [done | ]. split; [done | ].
    unfold getDay. rewrite C2, B2. destruct O as [O _].
    Z.div_mod_to_equations. lia.
Qed.

(** X8 at UTC-5 on Tuesday 2024-03-12: the week of Monday 2024-03-11. *)
Lemma X8_week_row_any_zone_witness :
  exists monday,
    getDay monday = 1 /\
    getFullWeekDays (-300) ["2024-03-12"%string] =
      map (fun i => Some (formatDate (addDays monday i))) (seqZ 0 7).
Proof.
  assert (Htz : -1440 < -300 < 1440) by lia.
  assert (W : wellFormed (mkDate 2024 2 12 0)) by concrete_date.
  destruct (X8_week_row_any_zone (-300) (mkDate 2024 2 12 0) [] Htz W)
    as (monday & _ & H2 & _ & H4 & _).
  exists monday. split; [exact H2 | exact H4].
Defined.

(** X9.  With no period days the week view is seven spacers and the clock
    is not read.  With a well-formed first day it is seven cells, one per
    day label, whose dates are the week row in order; the clock is read
    once per cell, and the days after the first are not looked at. *)
Theorem X9_week_view_slots (clk : nat -> Date) (tz : Z)
    (visits : list string) (d : Date) (rest : list string) (t : nat) :
  wellFormed d ->
  WeekGrid clk tz visits [] t = (replicate 7 None, t) /\
  length (result (WeekGrid clk tz visits (formatDate d :: rest)) t)
    = length DAY_LABELS /\
  Forall is_Some (result (WeekGrid clk tz visits (formatDate d :: rest)) t) /\
  map (fmap date) (result (WeekGrid clk tz visits (formatDate d :: rest)) t)
    = getFullWeekDays tz [formatDate d] /\
  (WeekGrid clk tz visits (formatDate d :: rest) t).2 = (7 + t)%nat.
Proof.
  intros W. split; [reflexivity | ].
  set (days := formatDate d :: rest).
  assert (T : forall day, day ∈ getFullWeekDays tz days ->
                exists s, day = Some s /\ truthy s = true).
  { intros day I.
    apply list_elem_of_In, in_map_iff in I as (i & <- & _).
    eexists. split; [done | apply truthy_formatDate]. }
  assert (M : map (fmap date) (result (WeekGrid clk tz visits days) t)
              = getFullWeekDays tz days).
  { unfold result, WeekGrid.
    rewrite <- (map_id (getFullWeekDays tz days)) at 2.
    apply mapM_clock_map. intros day I t0. apply renderDay_date.
    intros s ->. destruct (T _ I) as (s' & E & Ts). by injection E as ->. }
  split; [ | split; [ | split; [exact M | ]]].
  - unfold result, WeekGrid. rewrite mapM_clock_length.
    unfold getFullWeekDays, days. by rewrite length_map, length_seqZ.
  - apply Forall_forall. intros slot I.
    apply list_elem_of_In, (in_map (fmap date)), list_elem_of_In in I.
    rewrite M in I. destruct (T _ I) as (s & E & _). by destruct slot.
  - unfold WeekGrid, getFullWeekDays, days.
    change (seqZ 0 7) with [0; 1; 2; 3; 4; 5; 6]. cbn [map].
    rewrite !mapM_clock_cons. cbn [fst snd].
    rewrite !renderDay_ticks by apply truthy_formatDate. reflexivity.
Qed.

(** X9 on the week of 2024-03-11. *)
Lemma X9_week_view_slots_witness :
  Forall is_Some
    (result (WeekGrid (fun _ => mkDate 2024 2 10 0) 0 []
               [formatDate (mkDate 2024 2 11 0)]) 0).
Proof.
  assert (W : wellFormed (mkDate 2024 2 11 0)) by concrete_date.
  exact (proj1 (proj2 (proj2 (X9_week_view_slots (fun _ => mkDate 2024 2 10 0)
                                0 [] (mkDate 2024 2 11 0) [] 0 W)))).
Defined.

End WeekAnyZone.

(** ** Titles *)

Section Titles.

Variable clk : nat -> Date.
Variable today : Date.
Variable visits days : list string.

Lemma monthCells_days (t : nat) (c : DayCell) :
  100 <= getFullYear (clk (S t)) -> 0 <= getMonth (clk (S t)) <= 11 ->
  c ∈ monthCells (result (MonthGrid clk visits days) t) ->
  exists day,
    1 <= day <= DaysInMonth (getFullYear (clk (S t))) (getMonth (clk (S t))) /\
    date c = formatDate
               (mkDate (getFullYear (clk (S t))) (getMonth (clk (S t))) day 0).
Proof.
  intros Hy Hm I. apply monthCells_drawn in I as (w & Hw & Hc & _).
  rewrite monthGridData_run in Hw by done. cbn [snd] in Hw.
  pose proof (groupWeeks_from_days _ _ _ Hw Hc) as Hd.
  apply list_elem_of_In, in_map_iff in Hd as (d & E & Hd).
  apply list_elem_of_In, monthDates_elem in Hd as (day & R & ->).
  exists day. by split.
Qed.

Lemma yearCells_days (fuel t : nat) (v : YearView) (c : DayCell) :
  100 <= getFullYear (clk (S t)) -> (yearFuel <= fuel)%nat ->
  result (YearGrid clk fuel visits days) t = Some v ->
  c ∈ yearCells v ->
  exists d, d ∈ yearDates (clk (S t)) /\ date c = formatDate d.
Proof.
  intros Hy F R I.
  destruct (yearCells_drawn clk visits days fuel t v c R I)
    as (data & w & D & Hw & Hc & _).
  rewrite yearGridData_run in D by done. injection D as <-.
  cbn [allWeeks] in Hw.
  pose proof (groupWeeks_from_days _ _ _ Hw Hc) as Hd.
  apply list_elem_of_In, in_map_iff in Hd as (d & E & Hd).
  exists d. split; [by apply list_elem_of_In | done].
Qed.

(** X10.  On a day when every reading of the clock is [today], the title
    of the month view is the name of the month whose days its cells are,
    and the title of the year view is the year of every one of its
    cells. *)
Theorem X10_titles_name_the_cells (fuel t : nat) :
  steady clk today -> clockDate today -> (yearFuel <= fuel)%nat ->
  monthTitle (result (MonthGrid clk visits days) t)
    = nth (Z.to_nat (getMonth today)) FULL_MONTH_NAMES ""%string /\
  monthTitle (result (MonthGrid clk visits days) t) ∈ FULL_MONTH_NAMES /\
  (forall c, c ∈ monthCells (result (MonthGrid clk visits days) t) ->
     exists day,
       1 <= day <= DaysInMonth (getFullYear today) (getMonth today) /\
       date c = formatDate
                  (mkDate (getFullYear today) (getMonth today) day 0)) /\
  exists v,
    result (YearGrid clk fuel visits days) t = Some v /\
    yearTitle v = getFullYear today /\
    forall c, c ∈ yearCells v ->
      exists d, validDate d /\ getFullYear d = getFullYear today /\
                date c = formatDate d.
Proof.
  intros Hs [[(Hm & _ & _) Hy] H100] F.
  destruct (Hs t) as (Y0 & M0 & _). destruct (Hs (S t)) as (Y1 & M1 & _).
  assert (T : monthTitle (result (MonthGrid clk visits days) t)
              = nth (Z.to_nat (getMonth today)) FULL_MONTH_NAMES ""%string).
  { rewrite MonthGrid_run, monthGridData_run by lia.
    cbn [monthTitle fst]. by rewrite M0. }
  split; [exact T | ]. split; [ | split].
  - rewrite T. apply list_elem_of_In, nth_In. simpl. lia.
  - intros c I. rewrite <- Y1, <- M1. apply monthCells_days; [lia | lia | done].
  - assert (D : (yearGridData clk fuel t).1 = _)
      by (apply yearGridData_run; [lia | done]).
    eexists. split; [by apply YearGrid_run | ].
    cbn [yearTitle currentYear]. split; [done | ].
    intros c I.
    destruct (yearCells_days fuel t _ c ltac:(lia) F
                (YearGrid_run clk visits days fuel t _ D) I) as (d & Hd & E).
    apply yearDates_elem in Hd as (V & Y & _).
    exists d. split; [done | ]. split; [lia | done].
Qed.

End Titles.

(** X10 on 2024-03-10: the month view is titled March. *)
Lemma X10_titles_name_the_cells_witness :
  monthTitle (result (MonthGrid (fun _ => mkDate 2024 2 10 0) [] []) 0)
    = "March"%string.
Proof.
  assert (Hs : steady (fun _ => mkDate 2024 2 10 0) (mkDate 2024 2 10 0))
    by (intros k; repeat split).
  assert (W : clockDate (mkDate 2024 2 10 0)) by concrete_date.
  assert (F : (yearFuel <= 400)%nat) by (unfold yearFuel; lia).
  exact (proj1 (X10_titles_name_the_cells (fun _ => mkDate 2024 2 10 0)
                  (mkDate 2024 2 10 0) [] [] 400 0 Hs W F)).
Defined.

(** ** The exported component and the period days *)

Section PeriodDaysUse.

Variables g1 g2 : TimePeriod -> Clock (list string).

(** X11.  Of the list that the period helper returns, [StreakGrid] uses
    the first element only, and only in the week view: two helpers that
    read the clock equally often give the same view whenever, for the
    week, their lists begin alike. *)
Theorem X11_only_first_period_day (clk : nat -> Date) (tz : Z) (fuel : nat)
    (visits : list string) (period : TimePeriod) (t : nat) :
  (g1 period t).2 = (g2 period t).2 ->
  (period = PeriodWeek -> head (g1 period t).1 = head (g2 period t).1) ->
  result (StreakGrid g1 clk tz fuel visits period) t
  = result (StreakGrid g2 clk tz fuel visits period) t.
Proof.
  intros T H. rewrite !StreakGrid_run. cbv zeta. rewrite T.
  destruct period; [ | done | done].
  specialize (H eq_refl). unfold WeekGrid. do 3 f_equal.
  destruct ((g1 PeriodWeek t).1), ((g2 PeriodWeek t).1); try done.
  simpl in H. injection H as ->. done.
Qed.

End PeriodDaysUse.

(** X11 on two helpers that read the clock once. *)
Lemma X11_only_first_period_day_witness :
  result (StreakGrid (fun _ t => ([], S t)) (fun _ => mkDate 2024 2 10 0)
            0 400 [] PeriodMonth) 0
  = result (StreakGrid (fun _ t => (["2024-03-11"%string], S t))
              (fun _ => mkDate 2024 2 10 0) 0 400 [] PeriodMonth) 0.
Proof.
  apply X11_only_first_period_day; [reflexivity | discriminate].
Defined.

(** ** The statistics cards *)

Section Stats.

Variables current longest total : list string -> Clock Z.

(** X12.  The statistics are three cards, for the current streak, the
    longest streak and the total of visits, in this order and under
    distinct titles.  A card counts in ["day"] exactly when its value is 1.
    The longest streak is praised only while a streak is running and is at
    least as long: then the first card says to keep going; when no streak
    is running the cards say to start one and call the longest a
    record. *)
Theorem X12_stats_cards (visits : list string) (t : nat) :
  exists c1 c2 c3,
    result (StreakStats current longest total visits) t = [c1; c2; c3] /\
    shownValue c1 = (current visits t).1 /\
    shownValue c2 = (longest visits (current visits t).2).1 /\
    shownValue c3
      = (total visits (longest visits (current visits t).2).2).1 /\
    NoDup [shownTitle c1; shownTitle c2; shownTitle c3] /\
    (forall c, c ∈ [c1; c2; c3] ->
       (shownUnit c = "day"%string <-> shownValue c = 1)) /\
    (shownDescription c2 = "You're at your best!"%string <->
       0 < shownValue c1 /\ shownValue c2 <= shownValue c1) /\
    (shownDescription c2 = "You're at your best!"%string ->
       shownDescription c1 = "Keep it going!"%string) /\
    (shownValue c1 <= 0 ->
       shownDescription c1 = "Start your streak today!"%string /\
       shownDescription c2 = "Your personal record"%string).
Proof.
  unfold result, StreakStats, mbind, clock_bind, mret, clock_ret.
  destruct (current visits t) as [cs t1]. cbn [fst snd].
  destruct (longest visits t1) as [ls t2]. cbn [fst snd].
  destruct (total visits t2) as [tv t3]. cbn [fst snd map].
  eexists _, _, _. split; [reflexivity | ].
  unfold StatCard. cbn [shownValue shownTitle shownUnit shownDescription
                        title icon value description].
  split; [done | ]. split; [done | ]. split; [done | ]. split.
  - apply NoDup_ListNoDup. repeat constructor; simpl; intuition discriminate.
  - split; [ | split; [ | split]].
    + intros c I.
      repeat (apply elem_of_cons in I as [-> | I]);
        [ | | | by apply elem_of_nil in I];
        cbn [shownUnit shownValue];
        match goal with
        | |- context [?x =? 1] => destruct (Z.eqb_spec x 1)
        end; split; intros; try done; try lia.
    + destruct (Z.leb_spec ls cs), (Z.ltb_spec 0 cs); cbn [andb];
        split; intros; try done; lia.
    + destruct (Z.leb_spec ls cs), (Z.ltb_spec 0 cs); cbn [andb];
        intros; done.
    + intros L. destruct (Z.ltb_spec 0 cs); [lia | ].
      rewrite andb_false_r. done.
Qed.

End Stats.

(** X12 on a streak of three days that equals the longest. *)
Lemma X12_stats_cards_witness :
  exists c1 c2 c3,
    result (StreakStats (fun _ t => (3, t)) (fun _ t => (3, t))
              (fun _ t => (7, t)) []) 0 = [c1; c2; c3] /\
    shownDescription c1 = "Keep it going!"%string.
Proof.
  destruct (X12_stats_cards (fun _ t => (3, t)) (fun _ t => (3, t))
              (fun _ t => (7, t)) [] 0)
    as (c1 & c2 & c3 & R & V1 & V2 & _ & _ & _ & B & K & _).
  exists c1, c2, c3. split; [exact R | ].
  apply K, B. rewrite V1, V2. cbn. lia.
Defined.

(** ** The twelve month labels *)

Section TwelveLabels.

Implicit Types (w : Week) (now : Date).

Lemma findNonNull_at w (r : nat) (d : string) :
  w !! r = Some (Some d) ->
  (forall r', (r' < r)%nat -> w !! r' = Some None) ->
  findNonNull w = Some d.
Proof.
  revert r. induction w as [ | x w IH]; intros r H N; [done | ].
  destruct r as [ | r].
  - by injection H as ->.
  - pose proof (N 0%nat ltac:(lia)) as H0. injection H0 as ->.
    cbn [findNonNull]. apply (IH r); [done | ].
    intros r' Hr'. apply (N (S r')). lia.
Qed.

(** Seven days on, the month is the same or the next. *)
Lemma month_step (a b : Date) :
  validDate a -> validDate b -> getFullYear a = getFullYear b ->
  Day a <= Day b <= Day a + 7 ->
  getMonth b = getMonth a \/ getMonth b = getMonth a + 1.
Proof.
  destruct a as [ya ma da msa], b as [yb mb db msb].
  unfold validDate, Day. cbn [getFullYear getMonth getDate msInDay].
  intros (Ma & Da & _) (Mb & Db & _) -> H.
  assert (Ea : ma = 0 \/ ma = 1 \/ ma = 2 \/ ma = 3 \/ ma = 4 \/ ma = 5 \/
               ma = 6 \/ ma = 7 \/ ma = 8 \/ ma = 9 \/ ma = 10 \/ ma = 11)
    by lia.
  assert (Eb : mb = 0 \/ mb = 1 \/ mb = 2 \/ mb = 3 \/ mb = 4 \/ mb = 5 \/
               mb = 6 \/ mb = 7 \/ mb = 8 \/ mb = 9 \/ mb = 10 \/ mb = 11)
    by lia.
  unfold DayWithinYear, DaysInMonth in *.
  destruct (InLeapYear yb);
    repeat (destruct Ea as [Ea | Ea]; [subst ma | ]); try subst ma;
    repeat (destruct Eb as [Eb | Eb]; [subst mb | ]); try subst mb;
    cbn in *; lia.
Qed.

(** The last seven days of a year are in December. *)
Lemma month_of_last_week (y : Z) (b : Date) :
  validDate b -> getFullYear b = y ->
  Day (mkDate y 0 1 0) + (if InLeapYear y then 366 else 365) - 7 <= Day b ->
  getMonth b = 11.
Proof.
  destruct b as [yb mb db msb].
  unfold validDate, Day. cbn [getFullYear getMonth getDate msInDay].
  intros (Mb & Db & _) -> H.
  assert (Eb : mb = 0 \/ mb = 1 \/ mb = 2 \/ mb = 3 \/ mb = 4 \/ mb = 5 \/
               mb = 6 \/ mb = 7 \/ mb = 8 \/ mb = 9 \/ mb = 10 \/ mb = 11)
    by lia.
  unfold DayWithinYear, DaysInMonth in *.
  destruct (InLeapYear y);
    repeat (destruct Eb as [Eb | Eb]; [subst mb | ]); try subst mb;
    cbn in *; lia.
Qed.

(** The month keys of two days of one year differ exactly when their
    months do. *)
Lemma monthKey_eqb (a b : Date) :
  validDate a -> validDate b -> getFullYear a = getFullYear b ->
  String.eqb (substring 0 7 (formatDate a)) (substring 0 7 (formatDate b))
  = (getMonth a =? getMonth b).
Proof.
  intros (Ma & _) (Mb & _) Y.
  destruct (Z.eqb_spec (getMonth a) (getMonth b)) as [E | N].
  - apply String.eqb_eq. unfold formatDate. by rewrite Y, E.
  - apply String.eqb_neq. intros K. apply N.
    apply (f_equal (fun k => numberOf 0 (substring 5 2 k))) in K.
    change (numberOf 0 (pad2 (getMonth a + 1))
            = numberOf 0 (pad2 (getMonth b + 1))) in K.
    rewrite !numberOf_pad2 in K by lia. lia.
Qed.

Section OneYear.

Variable now : Date.
Hypothesis Hy : 0 <= getFullYear now <= 9999.

Let jan1 : Date := mkDate (getFullYear now) 0 1 0.
Let len : Z := if InLeapYear (getFullYear now) then 366 else 365.
Let weeks : list Week := groupWeeks (map formatDate (yearDates now)).

(** The first day of column [j]: January 1st in the first column, a Monday
    in the others. *)
Let firstOf (j : nat) : Date :=
  addDays jan1 (Z.max 0 (7 * Z.of_nat j - januaryWeekday now)).

Lemma year_columns_count :
  Z.of_nat (length weeks) = (januaryWeekday now + len + 6) / 7.
Proof.
  unfold weeks.
  rewrite (groupWeeks_count _ (januaryWeekday now) (januaryWeekday_range now)).
  - rewrite length_map, yearDates_length, Z2Nat.id; [done | ].
    destruct (InLeapYear (getFullYear now)); lia.
  - intros E. apply (f_equal length) in E.
    rewrite length_map, yearDates_length in E.
    destruct (InLeapYear (getFullYear now)); simpl in E; lia.
  - intros i d. by apply year_days_aligned.
Qed.

Lemma firstOf_index (j : nat) :
  (j < length weeks)%nat ->
  0 <= Z.max 0 (7 * Z.of_nat j - januaryWeekday now) < len.
Proof.
  intros L. pose proof year_columns_count as C.
  pose proof (januaryWeekday_range now) as R.
  assert (0 < len) by (unfold len; destruct (InLeapYear _); lia).
  Z.div_mod_to_equations. lia.
Qed.

Lemma firstOf_date (j : nat) :
  (j < length weeks)%nat ->
  validDate (firstOf j) /\ getFullYear (firstOf j) = getFullYear now /\
  Day (firstOf j)
  = Day jan1 + Z.max 0 (7 * Z.of_nat j - januaryWeekday now).
Proof.
  intros L. pose proof (firstOf_index j L) as B.
  assert (I : firstOf j ∈ yearDates now).
  { apply (list_elem_of_lookup_2 _
             (Z.to_nat (Z.max 0 (7 * Z.of_nat j - januaryWeekday now)))).
    rewrite yearDates_lookup_lt by (fold len; lia).
    unfold firstOf, jan1. by rewrite Z2Nat.id by lia. }
  apply yearDates_elem in I as (V & Y & _).
  split; [done | ]. split; [done | ].
  by destruct (addDays_spec jan1 (Z.max 0 (7 * Z.of_nat j - januaryWeekday now))
                 (validDate_jan1 _)) as (_ & A & _).
Qed.

Lemma year_column_first (j : nat) :
  (j < length weeks)%nat ->
  exists w, weeks !! j = Some w /\
            findNonNull w = Some (formatDate (firstOf j)).
Proof.
  intros L. pose proof (firstOf_index j L) as B.
  pose proof (januaryWeekday_range now) as R.
  set (k := Z.max 0 (7 * Z.of_nat j - januaryWeekday now)) in *.
  assert (A : forall i d, map formatDate (yearDates now) !! i = Some d ->
                getDayOfWeek d = (januaryWeekday now + Z.of_nat i) mod 7)
    by (intros i d; by apply year_days_aligned).
  destruct (groupWeeks_position (map formatDate (yearDates now))
              (januaryWeekday now) (Z.to_nat k) (formatDate (firstOf j)) R A)
    as (w & W1 & W2).
  { unfold firstOf. fold k. apply yearDates_nth. fold len. lia. }
  rewrite Z2Nat.id in W1, W2 by lia.
  assert (C : (januaryWeekday now + k) / 7 = Z.of_nat j)
    by (subst k; Z.div_mod_to_equations; lia).
  rewrite C, Nat2Z.id in W1. exists w. split; [exact W1 | ].
  apply (findNonNull_at w _ _ W2). intros r' Hr'.
  destruct j as [ | j].
  - assert (K0 : k = 0) by (subst k; lia).
    destruct (groupWeeks_columns _ (aligned_chain _ _ A))
      as (_ & P & _).
    assert (H0 : map formatDate (yearDates now) !! 0%nat
                 = Some (formatDate (firstOf 0))).
    { unfold firstOf. fold k. rewrite K0.
      apply (yearDates_nth now 0). fold len. lia. }
    destruct (P (formatDate (firstOf 0)) r') as (w' & W1' & W2').
    + by rewrite head_lookup.
    + rewrite (A 0%nat (formatDate (firstOf 0)) H0).
      rewrite K0 in Hr'. exact Hr'.
    + pose proof (eq_trans (eq_sym W1) W1') as Q. by injection Q as <-.
  - exfalso. assert ((januaryWeekday now + k) mod 7 = 0)
      by (subst k; Z.div_mod_to_equations; lia).
    rewrite H in Hr'. simpl in Hr'. lia.
Qed.

(** The label of a column, by the months of the first days. *)
Lemma year_label (j : nat) :
  (j < length weeks)%nat ->
  monthLabelsLoop weeks ""%string [] !! j =
  Some (if match j with
           | O => true
           | S i => negb (getMonth (firstOf j) =? getMonth (firstOf i))
           end
        then nth (Z.to_nat (getMonth (firstOf j))) FULL_MONTH_NAMES ""%string
        else ""%string).
Proof.
  intros L. destruct (year_column_first j L) as (w & Hw & Fw).
  destruct (firstOf_date j L) as (Vj & Yj & _).
  assert (K : monthKeyOf w = substring 0 7 (formatDate (firstOf j)))
    by (unfold monthKeyOf; by rewrite Fw).
  rewrite (monthLabelsLoop_lookup weeks) with (w := w); [ | | done].
  - rewrite K, (proj1 (getMonthName_key _ Vj)). f_equal.
    destruct j as [ | i]; [done | ].
    destruct (year_column_first i ltac:(lia)) as (p & Hp & Fp).
    destruct (firstOf_date i ltac:(lia)) as (Vi & Yi & _).
    rewrite Hp. unfold monthKeyOf. rewrite Fp.
    rewrite monthKey_eqb by (done || congruence). done.
  - apply Forall_forall. intros w' Hw'.
    apply list_elem_of_lookup_1 in Hw' as (i & Hi).
    destruct (year_column_first i (lookup_lt_Some _ _ _ Hi)) as (p & Hp & Fp).
    rewrite Hi in Hp. injection Hp as <-.
    exists (formatDate (firstOf i)). split; [done | apply truthy_formatDate].
Qed.

Lemma firstOf_step (i : nat) :
  (S i < length weeks)%nat ->
  getMonth (firstOf (S i)) = getMonth (firstOf i) \/
  getMonth (firstOf (S i)) = getMonth (firstOf i) + 1.
Proof.
  intros L.
  destruct (firstOf_date i ltac:(lia)) as (Vi & Yi & Di).
  destruct (firstOf_date (S i) L) as (Vj & Yj & Dj).
  pose proof (januaryWeekday_range now).
  apply month_step; [done | done | congruence | lia].
Qed.

Lemma firstOf_months (j : nat) :
  (j < length weeks)%nat -> 0 <= getMonth (firstOf j) <= 11.
Proof. intros L. by destruct (firstOf_date j L) as ((M & _) & _). Qed.

(** The labels shown up to column [j] are the month names up to the month
    of that column's first day. *)
Lemma year_labels_prefix (j : nat) :
  (j < length weeks)%nat ->
  filter (fun s : string => s <> ""%string)
         (take (S j) (monthLabelsLoop weeks ""%string []))
  = take (S (Z.to_nat (getMonth (firstOf j)))) FULL_MONTH_NAMES.
Proof.
  induction j as [ | i IH]; intros L.
  - rewrite (take_S_r _ _ _ (year_label 0 L)). cbn [take app].
    assert (M0 : getMonth (firstOf 0) = 0).
    { unfold firstOf.
      pose proof (januaryWeekday_range now).
      replace (Z.max 0 (7 * Z.of_nat 0 - januaryWeekday now)) with 0 by lia.
      reflexivity. }
    rewrite M0. reflexivity.
  - rewrite (take_S_r _ _ _ (year_label (S i) L)), filter_app, IH by lia.
    pose proof (firstOf_months i ltac:(lia)) as Mi.
    pose proof (firstOf_months (S i) L) as Mj.
    destruct (firstOf_step i L) as [E | E]; rewrite E.
    + rewrite Z.eqb_refl. cbn [negb]. rewrite filter_cons, filter_nil.
      case_decide; [done | by rewrite app_nil_r].
    + destruct (Z.eqb_spec (getMonth (firstOf i) + 1) (getMonth (firstOf i)));
        [lia | ]. cbn [negb].
      assert (Nm : FULL_MONTH_NAMES !! S (Z.to_nat (getMonth (firstOf i)))
                   = Some (nth (Z.to_nat (getMonth (firstOf i) + 1))
                             FULL_MONTH_NAMES ""%string)).
      { replace (Z.to_nat (getMonth (firstOf i) + 1))
          with (S (Z.to_nat (getMonth (firstOf i)))) by lia.
        destruct (lookup_lt_is_Some_2 FULL_MONTH_NAMES
                    (S (Z.to_nat (getMonth (firstOf i)))))
          as [x Hx]; [simpl; lia | ].
        by rewrite (nth_lookup_Some _ _ ""%string _ Hx). }
      rewrite filter_cons, filter_nil. case_decide as Ne.
      * replace (S (Z.to_nat (getMonth (firstOf i) + 1)))
          with (S (S (Z.to_nat (getMonth (firstOf i))))) by lia.
        by rewrite (take_S_r _ _ _ Nm).
      * exfalso.
        assert (D : Forall (fun s : string => s <> ""%string) FULL_MONTH_NAMES)
          by (repeat constructor; discriminate).
        rewrite Forall_lookup in D. apply (D _ _ Nm). exact Ne.
Qed.

Lemma year_labels_twelve :
  head (monthLabelsLoop weeks ""%string []) = Some "January"%string /\
  filter (fun s : string => s <> ""%string) (monthLabelsLoop weeks ""%string [])
  = FULL_MONTH_NAMES.
Proof.
  pose proof year_columns_count as C.
  pose proof (januaryWeekday_range now) as R.
  assert (P : 0 < len) by (unfold len; destruct (InLeapYear _); lia).
  assert (L : (0 < length weeks)%nat) by (Z.div_mod_to_equations; lia).
  split.
  - rewrite head_lookup, (year_label 0 L).
    assert (M0 : getMonth (firstOf 0) = 0).
    { unfold firstOf.
      replace (Z.max 0 (7 * Z.of_nat 0 - januaryWeekday now)) with 0 by lia.
      reflexivity. }
    by rewrite M0.
  - destruct (length weeks) as [ | n] eqn:E; [lia | ].
    pose proof (year_labels_prefix n ltac:(lia)) as Q.
    rewrite <- E, <- (monthLabelsLoop_length weeks ""%string) in Q.
    rewrite firstn_all in Q. rewrite Q.
    destruct (firstOf_date n ltac:(lia)) as (Vn & Yn & Dn).
    rewrite (month_of_last_week (getFullYear now) (firstOf n) Vn Yn).
    + reflexivity.
    + fold jan1 len. rewrite Dn. Z.div_mod_to_equations. lia.
Qed.

End OneYear.

(** X13.  Over the columns of the year grid the labels that are not empty
    are the twelve month names, January to December, each once and in this
    order; the first column is labelled January. *)
Theorem X13_twelve_month_labels (clk : nat -> Date) (fuel t : nat) :
  100 <= getFullYear (clk (S t)) <= 9999 -> (yearFuel <= fuel)%nat ->
  exists data,
    result (yearGridData clk fuel) t = Some data /\
    head (monthLabels data) = Some "January"%string /\
    filter (fun s : string => s <> ""%string) (monthLabels data)
    = FULL_MONTH_NAMES.
Proof.
  intros Hy F. unfold result. rewrite yearGridData_run by (done || lia).
  eexists. split; [done | ]. cbn [monthLabels].
  apply year_labels_twelve. lia.
Qed.

End TwelveLabels.

(** X13 in 2024. *)
Lemma X13_twelve_month_labels_witness :
  exists data,
    result (yearGridData (fun _ => mkDate 2024 2 10 0) 400) 0 = Some data /\
    length (filter (fun s : string => s <> ""%string) (monthLabels data))
    = 12%nat.
Proof.
  assert (Hy : 100 <= getFullYear (mkDate 2024 2 10 0) <= 9999)
    by (vm_compute; split; intro; discriminate).
  assert (F : (yearFuel <= 400)%nat) by (unfold yearFuel; lia).
  destruct (X13_twelve_month_labels (fun _ => mkDate 2024 2 10 0) 400 0 Hy F)
    as (data & H1 & _ & H3).
  exists data. split; [exact H1 | ]. rewrite H3. reflexivity.
Defined.

(** ** The padding of the first column *)

Section FirstColumn.

(** X14.  [YearGrid] computes [jan1DayOfWeek] and does not use it; the
    grouping loop pads the first column all the same.  When the year that
    gives the title is the year that gives the days, the first column of
    the year grid has [jan1DayOfWeek] empty slots and then January 1st. *)
Theorem X14_first_column_padding (clk : nat -> Date) (fuel t : nat) :
  100 <= getFullYear (clk t) <= 9999 ->
  getFullYear (clk (S t)) = getFullYear (clk t) ->
  (yearFuel <= fuel)%nat ->
  exists data w,
    result (yearGridData clk fuel) t = Some data /\
    allWeeks data !! 0%nat = Some w /\
    0 <= jan1DayOfWeek (currentYear data) <= 6 /\
    (forall r : nat, Z.of_nat r < jan1DayOfWeek (currentYear data) ->
       w !! r = Some None) /\
    w !! Z.to_nat (jan1DayOfWeek (currentYear data))
    = Some (Some (formatDate (mkDate (currentYear data) 0 1 0))).
Proof.
  intros Hy Y F. unfold result. rewrite yearGridData_run by (done || lia).
  set (now := clk (S t)). set (days := map formatDate (yearDates now)).
  cbn [currentYear allWeeks].
  assert (J : jan1DayOfWeek (getFullYear (clk t)) = januaryWeekday now).
  { unfold jan1DayOfWeek, januaryWeekday. cbv zeta.
    rewrite newDateYMD_valid by (cbn; lia). unfold now. rewrite Y.
    rewrite getDayOfWeek_formatDate
      by (split; [apply validDate_jan1 | cbn; lia]).
    unfold getDay.
    destruct (Z.eqb_spec
                ((Day (mkDate (getFullYear (clk t)) 0 1 0) + 4) mod 7) 0);
      Z.div_mod_to_equations; lia. }
  pose proof (januaryWeekday_range now) as R.
  assert (A : forall i d, days !! i = Some d ->
                getDayOfWeek d = (januaryWeekday now + Z.of_nat i) mod 7)
    by (intros i d; apply year_days_aligned; unfold now; lia).
  assert (H0 : days !! 0%nat = Some (formatDate (mkDate (getFullYear now) 0 1 0))).
  { apply (yearDates_nth now 0). destruct (InLeapYear _); lia. }
  destruct (groupWeeks_position days (januaryWeekday now) 0 _ R A H0)
    as (w & W1 & W2).
  replace (januaryWeekday now + Z.of_nat 0) with (januaryWeekday now)
    in W1, W2 by lia.
  rewrite Z.div_small in W1 by lia. rewrite Z.mod_small in W2 by lia.
  eexists _, w. split; [reflexivity | ]. cbn [currentYear allWeeks].
  split; [exact W1 | ]. rewrite J. split; [exact R | ]. split.
  - intros r Hr.
    destruct (groupWeeks_columns _ (aligned_chain _ _ A)) as (_ & P & _).
    destruct (P _ r ltac:(by rewrite head_lookup)) as (w' & W1' & W2').
    + rewrite (A 0%nat _ H0). rewrite Z.add_0_r, Z.mod_small by lia. lia.
    + pose proof (eq_trans (eq_sym W1) W1') as Q. by injection Q as <-.
  - rewrite <- Y. exact W2.
Qed.

End FirstColumn.

(** X14 in 2024. *)
Lemma X14_first_column_padding_witness :
  exists data w,
    result (yearGridData (fun _ => mkDate 2024 2 10 0) 400) 0 = Some data /\
    allWeeks data !! 0%nat = Some w /\
    w !! Z.to_nat (jan1DayOfWeek (currentYear data))
    = Some (Some (formatDate (mkDate (currentYear data) 0 1 0))).
Proof.
  assert (Hy : 100 <= getFullYear (mkDate 2024 2 10 0) <= 9999)
    by (vm_compute; split; intro; discriminate).
  assert (F : (yearFuel <= 400)%nat) by (unfold yearFuel; lia).
  destruct (X14_first_column_padding (fun _ => mkDate 2024 2 10 0) 400 0
              Hy eq_refl F) as (data & w & H1 & H2 & _ & _ & H5).
  exists data, w. split; [exact H1 | ]. split; [exact H2 | exact H5].
Defined.

(** ** The readings of the clock *)

Section Readings.

Variable clk : nat -> Date.
Variable visits : list string.

Implicit Types (w : Week) (weeks : list Week).








End Readings.

